(** * asana-field-migrator.js: a shallow embedding and its properties

    The script migrates the value of one single-select custom field of
    the tasks of a project to another custom field, through a table
    read from a CSV file.  It has four parts, embedded here in the
    order of the source:

    - [loadMapping]            the Mapping Loader,
    - [getAllProjectTasks]     the Task Fetcher,
    - [updateTaskCustomField]  the Task Updater,
    - [main]                   the Migration Driver.

    Modelling choices.

    - The remote service is a script of responses, served in the order
      in which requests are issued; when the script is exhausted [fetch]
      rejects, as it does on a transport failure.  A response that is ok
      carries a page (a JSON body with its data array).
    - An asynchronous function is a function from that script to the
      events it produced, the responses left, and a completion (a
      returned value or a thrown exception).
    - The events are the requests sent and the timers awaited.  Console
      output is not modelled: the counting loop at the end of
      getAllProjectTasks, whose counters only reach the console, is
      embedded on its own as [countOldField], and the log lines of the
      other parts are left out.
    - The mapping table is a plain object: a finite map of its own
      properties, above which sit the properties every object inherits
      from Object.prototype.  A read finds an own property first and an
      inherited one next; an assignment creates an own property, except
      under the name __proto__, where it reaches the setter of
      Object.prototype, which ignores a string.
    - csv-parse is an external package.  Its function parse is a
      parameter of the loader: the embedding says with which options
      the loader calls it and what it does with the records returned,
      and assumes nothing of the parser.  The records of a file with
      the two columns have a string under each. *)

From Stdlib Require Import String Ascii List Bool Arith Lia.
From stdpp Require Import base option list gmap strings.

Import ListNotations.
Local Open Scope string_scope.
Local Open Scope list_scope.

(** ** JavaScript values and truthiness *)

Inductive JsValue :=
| JsUndefined
| JsBoolean (b : bool)
| JsString (s : string)
| JsFunction (name : string)
| JsObjectPrototype.

(** ToBoolean: undefined and the empty string are falsy; a function and
    an object are truthy. *)
Definition truthy (v : JsValue) : bool :=
  match v with
  | JsUndefined => false
  | JsBoolean b => b
  | JsString s => negb (String.eqb s "")
  | JsFunction _ => true
  | JsObjectPrototype => true
  end.

(** ** Exceptions and completions *)

Inductive exn :=
| Error (message : string)
| TypeError (message : string)
| SystemError (code : string) (path : string).

Inductive Completion (A : Type) :=
| Return (a : A)
| Throw (e : exn).

Arguments Return {A} a.
Arguments Throw {A} e.

(** ** Configuration (process.env) *)

Record Config := {
  PERSONAL_ACCESS_TOKEN : string;
  ASANA_PROJECT_GID : string;
  OLD_FIELD_GID : string;
  NEW_FIELD_GID : string;
  CSV_MAPPING_FILE : string
}.

(** ** The mapping file *)

Record Row := {
  old_value : string;
  new_value : string
}.

(** The options the loader passes to parse. *)
Record ParseOptions := {
  columns : bool;
  trim : bool
}.

(** The type of parse(input, options) of csv-parse/sync: the records of
    the input, or the error it throws. *)
Definition Parser : Type := string -> ParseOptions -> Completion (list Row).

(** readFile(csvFile, 'utf8') *)
Definition readFile (fs : gmap string string) (path : string) : Completion string :=
  match fs !! path with
  | Some fileContent => Return fileContent
  | None => Throw (SystemError "ENOENT" path)
  end.

(** ** The mapping table, a plain object *)

(** The methods an object inherits from Object.prototype. *)
Definition Object_prototype_methods : list string :=
  ["constructor"; "__defineGetter__"; "__defineSetter__"; "hasOwnProperty";
   "__lookupGetter__"; "__lookupSetter__"; "isPrototypeOf"; "propertyIsEnumerable";
   "toString"; "valueOf"; "toLocaleString"].

(** What a read of [key] finds on Object.prototype: the prototype itself
    under __proto__, a method under a method's name, nothing otherwise. *)
Definition inherited (key : string) : JsValue :=
  if String.eqb key "__proto__" then JsObjectPrototype
  else if existsb (String.eqb key) Object_prototype_methods then JsFunction key
  else JsUndefined.

(** mapping[key] *)
Definition js_get (mapping : gmap string string) (key : string) : JsValue :=
  match mapping !! key with
  | Some value => JsString value
  | None => inherited key
  end.

(** mapping[key] = value, for a string value *)
Definition js_set (mapping : gmap string string) (key value : string)
  : gmap string string :=
  if String.eqb key "__proto__" then mapping
  else <[key := value]> mapping.

(** ** Mapping Loader *)

(** The body of the for loop: mapping[row.old_value] = row.new_value *)
Definition assignRow (mapping : gmap string string) (row : Row) : gmap string string :=
  js_set mapping (old_value row) (new_value row).

Definition loadMapping (parse : Parser) (fs : gmap string string) (csvFile : string)
  : Completion (gmap string string) :=
  match readFile fs csvFile with
  | Throw e => Throw e
  | Return fileContent =>
      match parse fileContent {| columns := true; trim := true |} with
      | Throw e => Throw e
      | Return records => Return (foldl assignRow ∅ records)
      end
  end.

(** ** Tasks as the remote service returns them *)

Record EnumValue := {
  enum_gid : option string
}.

Record CustomField := {
  field_gid : string;
  enum_value : option EnumValue
}.

Record Task := {
  task_gid : string;
  task_name : string;
  custom_fields : option (list CustomField)
}.

(** ** Requests, responses and events *)

Record NextPage := {
  offset : option string
}.

Record Page := {
  data : list Task;
  next_page : option NextPage
}.

Record Response := {
  ok : bool;
  text : string;
  json : Page
}.

Inductive Method := GET | PUT.

Record Request := {
  method : Method;
  url : string;
  authorization : string;
  content_type : option string;
  body_custom_fields : list (string * JsValue)
}.

Inductive Event :=
| EvFetch (request : Request)
| EvTimeout (ms : nat).

(** ** Asynchronous functions *)

Definition Async (A : Type) : Type :=
  list Response -> list Event * list Response * Completion A.

Definition ret {A} (a : A) : Async A :=
  fun network => ([], network, Return a).

Definition throw {A} (e : exn) : Async A :=
  fun network => ([], network, Throw e).

Definition bind {A B} (m : Async A) (k : A -> Async B) : Async B :=
  fun network =>
    match m network with
    | (events, network', Return a) =>
        match k a network' with
        | (events', network'', c) => (events ++ events', network'', c)
        end
    | (events, network', Throw e) => (events, network', Throw e)
    end.

Notation "x <- m ;; k" := (bind m (fun x => k))
  (at level 100, m at next level, right associativity).

(** A function that touches neither the network nor a timer. *)
Definition lift {A} (c : Completion A) : Async A :=
  fun network => ([], network, c).

(** await fetch(url, options) *)
Definition fetch (request : Request) : Async Response :=
  fun network =>
    match network with
    | [] => ([EvFetch request], [], Throw (TypeError "fetch failed"))
    | response :: network' => ([EvFetch request], network', Return response)
    end.

(** await new Promise(res => setTimeout(res, ms)) *)
Definition setTimeout (ms : nat) : Async unit :=
  fun network => ([EvTimeout ms], network, Return tt).

Definition events_of {A} (r : list Event * list Response * Completion A) : list Event :=
  fst (fst r).

Definition network_of {A} (r : list Event * list Response * Completion A) : list Response :=
  snd (fst r).

Definition completion_of {A} (r : list Event * list Response * Completion A) : Completion A :=
  snd r.

(** The update requests among a list of events. *)
Definition is_update (e : Event) : bool :=
  match e with
  | EvFetch request => match method request with PUT => true | GET => false end
  | EvTimeout _ => false
  end.

Definition is_timeout (e : Event) : bool :=
  match e with
  | EvFetch _ => false
  | EvTimeout _ => true
  end.

Section Migrator.

Variable cfg : Config.
Variable parse : Parser.

(** ** Task Fetcher *)

Definition baseURL : string := "https://app.asana.com/api/1.0/tasks".

Definition firstURL (projectGid : string) : string :=
  baseURL ++ "?project=" ++ projectGid ++ "&opt_fields=name,custom_fields&limit=100".

Definition nextURL (projectGid offset : string) : string :=
  baseURL ++ "?project=" ++ projectGid
          ++ "&opt_fields=name,custom_fields&limit=100&offset=" ++ offset.

Definition taskRequest (url : string) : Request :=
  {| method := GET;
     url := url;
     authorization := "Bearer " ++ PERSONAL_ACCESS_TOKEN cfg;
     content_type := None;
     body_custom_fields := [] |}.

(** data.next_page && data.next_page.offset, with the offset it yields *)
Definition continuation (page : Page) : option string :=
  match next_page page with
  | Some np =>
      match offset np with
      | Some o => if truthy (JsString o) then Some o else None
      | None => None
      end
  | None => None
  end.

(** The while loop.  Each turn consumes the response to its request, so
    the loop is a recursion over the responses still to come. *)
Fixpoint fetchPages (projectGid : string) (network : list Response)
         (url : string) (tasks : list Task)
  : list Event * list Response * Completion (list Task) :=
  match network with
  | [] => ([EvFetch (taskRequest url)], [], Throw (TypeError "fetch failed"))
  | response :: network' =>
      if negb (ok response) then
        ([EvFetch (taskRequest url)], network',
         Throw (Error ("Failed to fetch tasks: " ++ text response)))
      else
        let page := json response in
        let tasks := tasks ++ data page in
        match continuation page with
        | Some offset =>
            match fetchPages projectGid network' (nextURL projectGid offset) tasks with
            | (events, network'', c) =>
                (EvFetch (taskRequest url) :: events, network'', c)
            end
        | None => ([EvFetch (taskRequest url)], network', Return tasks)
        end
  end.

Definition getAllProjectTasks (projectGid : string) : Async (list Task) :=
  fun network => fetchPages projectGid network (firstURL projectGid) [].

(** ** Task Updater *)

(** The properties of the object { [key]: value } that JSON.stringify
    writes: a property whose value is undefined or a function is left
    out. *)
Definition stringified (key : string) (value : JsValue) : list (string * JsValue) :=
  match value with
  | JsUndefined => []
  | JsFunction _ => []
  | _ => [(key, value)]
  end.

Definition updateRequest (taskGid : string) (newValue : JsValue) : Request :=
  {| method := PUT;
     url := "https://app.asana.com/api/1.0/tasks/" ++ taskGid;
     authorization := "Bearer " ++ PERSONAL_ACCESS_TOKEN cfg;
     content_type := Some "application/json";
     body_custom_fields := stringified (NEW_FIELD_GID cfg) newValue |}.

(** Both branches only write to the console; the function has no return
    statement, so its promise resolves to undefined on either. *)
Definition updateTaskCustomField (taskGid : string) (newValue : JsValue)
  : Async JsValue :=
  response <- fetch (updateRequest taskGid newValue) ;;
  if negb (ok response) then
    (* console.error: failed to update, with the response text *)
    ret JsUndefined
  else
    (* console.log: successfully updated *)
    ret JsUndefined.

(** ** Migration Driver *)

Record Counters := {
  tasksAttempted : nat;
  tasksUpdated : nat
}.

(** field.enum_value && field.enum_value.gid, with the gid it yields *)
Definition selected (field : CustomField) : option string :=
  match enum_value field with
  | Some ev =>
      match enum_gid ev with
      | Some g => if truthy (JsString g) then Some g else None
      | None => None
      end
  | None => None
  end.

(** custom_fields.find(f => f.gid === OLD_FIELD_GID) *)
Definition oldField (customFields : list CustomField) : option CustomField :=
  find (fun f => String.eqb (field_gid f) (OLD_FIELD_GID cfg)) customFields.

(** The inner for loop: oldEnumGid starts as null, the first field whose
    gid is OLD_FIELD_GID sets it (or leaves it) and breaks. *)
Fixpoint findOldEnumGid (customFields : list CustomField) : option string :=
  match customFields with
  | [] => None
  | field :: rest =>
      if String.eqb (field_gid field) (OLD_FIELD_GID cfg) then selected field
      else findOldEnumGid rest
  end.

(** The body of the outer for loop; a [continue] is [ret counters]. *)
Definition processTask (mapping : gmap string string) (counters : Counters)
           (task : Task) : Async Counters :=
  match custom_fields task with
  | None => ret counters
  | Some [] => ret counters
  | Some customFields =>
      match findOldEnumGid customFields with
      | None => ret counters
      | Some oldEnumGid =>
          if negb (truthy (JsString oldEnumGid)) then ret counters
          else
            let newEnumGid := js_get mapping oldEnumGid in
            if truthy newEnumGid then
              let attempted := S (tasksAttempted counters) in
              updateSuccess <- updateTaskCustomField (task_gid task) newEnumGid ;;
              let updated :=
                if truthy updateSuccess then S (tasksUpdated counters)
                else tasksUpdated counters in
              _ <- setTimeout 200 ;;
              ret {| tasksAttempted := attempted; tasksUpdated := updated |}
            else ret counters
      end
  end.

Fixpoint forTasks (mapping : gmap string string) (counters : Counters)
         (tasks : list Task) : Async Counters :=
  match tasks with
  | [] => ret counters
  | task :: rest =>
      counters' <- processTask mapping counters task ;;
      forTasks mapping counters' rest
  end.

Inductive Outcome :=
| Done (counters : Counters)
| Caught (err : exn).

(** try { ... } catch (err) { console.error("Error:", err) } *)
Definition main (fs : gmap string string)
  : list Response -> list Event * list Response * Outcome :=
  fun network =>
    let run :=
      mapping <- lift (loadMapping parse fs (CSV_MAPPING_FILE cfg)) ;;
      tasks <- getAllProjectTasks (ASANA_PROJECT_GID cfg) ;;
      forTasks mapping {| tasksAttempted := 0; tasksUpdated := 0 |} tasks in
    match run network with
    | (events, network', Return counters) => (events, network', Done counters)
    | (events, network', Throw err) => (events, network', Caught err)
    end.

End Migrator.

(** ** Sample data *)

Definition sampleConfig : Config :=
  {| PERSONAL_ACCESS_TOKEN := "token";
     ASANA_PROJECT_GID := "1200";
     OLD_FIELD_GID := "11";
     NEW_FIELD_GID := "22";
     CSV_MAPPING_FILE := "mapping.csv" |}.

Definition mkRow (o n : string) : Row := {| old_value := o; new_value := n |}.

Definition LF : string := String (ascii_of_nat 10) EmptyString.

(** Small mapping files: one with cells to trim and a repeated
    old_value, one whose only row has a blank old_value, one whose only
    row has an empty new_value, and one whose rows have the old_value
    __proto__. *)
Definition sampleText : string :=
  "old_value,new_value" ++ LF ++ " 101,201 " ++ LF ++ "102,200" ++ LF ++ "102,202".

Definition blankKeyText : string :=
  "old_value,new_value" ++ LF ++ "  ,201".

Definition emptyNewText : string :=
  "old_value,new_value" ++ LF ++ "101,".

Definition protoText : string :=
  "old_value,new_value" ++ LF ++ "__proto__,201" ++ LF ++ "__proto__,202".

(** Two files with the same two rows in opposite orders. *)
Definition plainText : string :=
  "old_value,new_value" ++ LF ++ "101,201" ++ LF ++ "102,202".

Definition swappedText : string :=
  "old_value,new_value" ++ LF ++ "102,202" ++ LF ++ "101,201".

(** What csv-parse returns for these files when columns and trim are
    on, as a table; the table says nothing of any other input. *)
Definition sampleParse : Parser :=
  fun input options =>
    if negb (columns options && trim options) then Throw (Error "not in the table")
    else if String.eqb input sampleText then
      Return [mkRow "101" "201"; mkRow "102" "200"; mkRow "102" "202"]
    else if String.eqb input blankKeyText then Return [mkRow "" "201"]
    else if String.eqb input emptyNewText then Return [mkRow "101" ""]
    else if String.eqb input protoText then
      Return [mkRow "__proto__" "201"; mkRow "__proto__" "202"]
    else if String.eqb input plainText then
      Return [mkRow "101" "201"; mkRow "102" "202"]
    else if String.eqb input swappedText then
      Return [mkRow "102" "202"; mkRow "101" "201"]
    else Throw (Error "not in the table").

Definition sampleRecords : list Row :=
  [mkRow "101" "201"; mkRow "102" "200"; mkRow "102" "202"].

Definition sampleFs : gmap string string := {[ "mapping.csv" := sampleText ]}.
Definition emptyNewFs : gmap string string := {[ "mapping.csv" := emptyNewText ]}.
Definition protoFs : gmap string string := {[ "mapping.csv" := protoText ]}.
Definition plainFs : gmap string string := {[ "a.csv" := plainText ]}.
Definition swappedFs : gmap string string := {[ "b.csv" := swappedText ]}.

Definition sampleMapping : gmap string string :=
  <["102" := "202"]> (<["101" := "201"]> ∅).

Definition mkField (g : string) (v : option string) : CustomField :=
  {| field_gid := g;
     enum_value := match v with
                   | Some s => Some {| enum_gid := Some s |}
                   | None => None
                   end |}.

Definition mkTask (g n : string) (fields : option (list CustomField)) : Task :=
  {| task_gid := g; task_name := n; custom_fields := fields |}.

(** The tasks of the scenario: A has the old field set to 101, B has no
    old field, C has the old field unset, D has it set to 999; E has no
    custom fields, F carries the old field twice, unset then set, G has
    it with an empty gid, H has it set to constructor, a name that no
    row of the files holds, and I carries it twice, set to 101 and then
    to 102. *)
Definition taskA : Task := mkTask "1" "A" (Some [mkField "33" (Some "7"); mkField "11" (Some "101")]).
Definition taskB : Task := mkTask "2" "B" (Some [mkField "33" (Some "7")]).
Definition taskC : Task := mkTask "3" "C" (Some [mkField "11" None]).
Definition taskD : Task := mkTask "4" "D" (Some [mkField "11" (Some "999")]).
Definition taskE : Task := mkTask "5" "E" None.
Definition taskF : Task := mkTask "6" "F" (Some [mkField "11" None; mkField "11" (Some "101")]).
Definition taskG : Task :=
  mkTask "7" "G" (Some [{| field_gid := "11"; enum_value := Some {| enum_gid := Some "" |} |}]).
Definition taskH : Task := mkTask "8" "H" (Some [mkField "11" (Some "constructor")]).
Definition taskI : Task :=
  mkTask "9" "I" (Some [mkField "33" (Some "7"); mkField "11" (Some "101");
                        mkField "11" (Some "102")]).

Definition mkPage (tasks : list Task) (cursor : option string) : Response :=
  {| ok := true;
     text := "";
     json := {| data := tasks;
                next_page := match cursor with
                             | Some c => Some {| offset := Some c |}
                             | None => None
                             end |} |}.

Definition emptyCursorPage (tasks : list Task) : Response :=
  {| ok := true;
     text := "";
     json := {| data := tasks; next_page := Some {| offset := Some "" |} |} |}.

Definition okResponse : Response :=
  {| ok := true; text := "{}"; json := {| data := []; next_page := None |} |}.

Definition failResponse (body : string) : Response :=
  {| ok := false; text := body; json := {| data := []; next_page := None |} |}.

Definition noCounters : Counters := {| tasksAttempted := 0; tasksUpdated := 0 |}.

(** ** Predicates used in the statements *)

(** The cursors of a list of responses, in order. *)
Definition cursors (pages : list Response) : list string :=
  omap (fun r => continuation (json r)) pages.

Definition outcome_of (r : list Event * list Response * Outcome) : Outcome :=
  snd r.

(** What the driver's tests decide for one task: the value it will
    write, when the task is not skipped. *)
Definition planned (cfg : Config) (mapping : gmap string string) (task : Task)
  : option JsValue :=
  match custom_fields task with
  | Some customFields =>
      match findOldEnumGid cfg customFields with
      | Some oldEnumGid =>
          if truthy (js_get mapping oldEnumGid) then Some (js_get mapping oldEnumGid)
          else None
      | None => None
      end
  | None => None
  end.

Definition planned_events (cfg : Config) (mapping : gmap string string) (task : Task)
  : list Event :=
  match planned cfg mapping task with
  | Some newValue => [EvFetch (updateRequest cfg (task_gid task) newValue); EvTimeout 200]
  | None => []
  end.

(** The events of the page requests sent to a list of URLs. *)
Definition requests (cfg : Config) (urls : list string) : list Event :=
  map (fun u => EvFetch (taskRequest cfg u)) urls.

(** A response of a page that is followed by another one. *)
Definition has_more (r : Response) : Prop :=
  ok r = true /\ continuation (json r) <> None.

(** ** The counting loop of getAllProjectTasks *)

Record FieldStats := {
  oldFieldFoundCount : nat;
  oldFieldWithValueCount : nat
}.

(** The body of the loop over the fetched tasks: a task with custom
    fields whose old field is found counts once, and once more when
    that field has a value. *)
Definition countTask (cfg : Config) (stats : FieldStats) (task : Task) : FieldStats :=
  match custom_fields task with
  | None => stats
  | Some [] => stats
  | Some customFields =>
      match oldField cfg customFields with
      | Some field =>
          {| oldFieldFoundCount := S (oldFieldFoundCount stats);
             oldFieldWithValueCount :=
               match selected field with
               | Some _ => S (oldFieldWithValueCount stats)
               | None => oldFieldWithValueCount stats
               end |}
      | None => stats
      end
  end.

Definition countOldField (cfg : Config) (tasks : list Task) : FieldStats :=
  foldl (countTask cfg) {| oldFieldFoundCount := 0; oldFieldWithValueCount := 0 |} tasks.

(** oldFieldWithValueCount === 0: the branch that warns that updates
    will not occur. *)
Definition warnsNoValue (cfg : Config) (tasks : list Task) : bool :=
  Nat.eqb (oldFieldWithValueCount (countOldField cfg tasks)) 0.

(** ** Further predicates *)

(** The old value the driver reads off a task, if any. *)
Definition oldValueOf (cfg : Config) (task : Task) : option string :=
  match custom_fields task with
  | Some customFields => findOldEnumGid cfg customFields
  | None => None
  end.

(** A page request of the fetcher for a project. *)
Definition page_request (cfg : Config) (projectGid : string) (e : Event) : Prop :=
  exists u,
    e = EvFetch (taskRequest cfg u) /\
    (u = firstURL projectGid \/ exists o, o <> "" /\ u = nextURL projectGid o).

Definition tasks_of (pages : list Response) : list Task :=
  concat (map (fun r => data (json r)) pages).

(** * Properties *)

(** ** Reads and writes of the table *)

Lemma js_set_lookup_eq (mapping : gmap string string) key value :
  key <> "__proto__" -> js_set mapping key value !! key = Some value.
Proof.
  intros Hkey. unfold js_set. apply String.eqb_neq in Hkey. rewrite Hkey.
  apply lookup_insert_eq.
Qed.

Lemma js_set_lookup_ne (mapping : gmap string string) key value other :
  key <> other -> js_set mapping key value !! other = mapping !! other.
Proof.
  intros Hne. unfold js_set. destruct (String.eqb key "__proto__"); [reflexivity|].
  apply lookup_insert_ne. exact Hne.
Qed.

Lemma js_set_proto (mapping : gmap string string) value :
  js_set mapping "__proto__" value = mapping.
Proof. reflexivity. Qed.

Lemma js_get_own (mapping : gmap string string) key value :
  mapping !! key = Some value -> js_get mapping key = JsString value.
Proof. intros H. unfold js_get. rewrite H. reflexivity. Qed.

Lemma js_get_absent (mapping : gmap string string) key :
  mapping !! key = None -> inherited key = JsUndefined ->
  js_get mapping key = JsUndefined.
Proof. intros H Hin. unfold js_get. rewrite H. exact Hin. Qed.

(** ** The table built by the loader's loop *)

Lemma foldl_assignRow_other (records : list Row) (mapping : gmap string string) key :
  (forall row, In row records -> old_value row <> key) ->
  foldl assignRow mapping records !! key = mapping !! key.
Proof.
  revert mapping. induction records as [|r records IH]; intros mapping Hne; simpl.
  - reflexivity.
  - rewrite IH by (intros row Hin; apply Hne; right; exact Hin).
    unfold assignRow. apply js_set_lookup_ne. apply Hne. left. reflexivity.
Qed.

Lemma foldl_assignRow_proto (records : list Row) (mapping : gmap string string) :
  foldl assignRow mapping records !! "__proto__" = mapping !! "__proto__".
Proof.
  revert mapping. induction records as [|r records IH]; intros mapping; simpl.
  - reflexivity.
  - rewrite IH. unfold assignRow.
    destruct (String.eqb (old_value r) "__proto__") eqn:Hk.
    + apply String.eqb_eq in Hk. rewrite Hk, js_set_proto. reflexivity.
    + apply js_set_lookup_ne. apply String.eqb_neq. exact Hk.
Qed.

Lemma foldl_assignRow_last (before after : list Row) row (mapping : gmap string string) :
  old_value row <> "__proto__" ->
  (forall row', In row' after -> old_value row' <> old_value row) ->
  foldl assignRow mapping (before ++ row :: after) !! old_value row
  = Some (new_value row).
Proof.
  intros Hkey Hne. rewrite foldl_app. simpl.
  rewrite foldl_assignRow_other by exact Hne.
  unfold assignRow. apply js_set_lookup_eq. exact Hkey.
Qed.


Lemma loadMapping_returns (parse : Parser) fs csvFile fileContent records :
  fs !! csvFile = Some fileContent ->
  parse fileContent {| columns := true; trim := true |} = Return records ->
  loadMapping parse fs csvFile = Return (foldl assignRow ∅ records).
Proof.
  intros Hfile Hparse. unfold loadMapping, readFile. rewrite Hfile, Hparse. reflexivity.
Qed.

(** ** Mapping Loader *)




(** C6, what the code does.  Loading is a function of the content and
    of what the parser returns for it, so two files with the same
    content give the same table; and among the records that share an
    old_value other than __proto__ the last one decides the value bound
    to it.  But an assignment under the name __proto__ writes no
    property: for the file whose two rows have the old_value __proto__
    the table stays empty, no row wins, and a read of __proto__ finds
    the prototype of the table instead of a new_value. *)
Theorem C6_last_row_wins_except_proto :
  (forall (parse : Parser) fs1 fs2 csvFile1 csvFile2 fileContent records,
      fs1 !! csvFile1 = Some fileContent ->
      fs2 !! csvFile2 = Some fileContent ->
      parse fileContent {| columns := true; trim := true |} = Return records ->
      exists mapping,
        loadMapping parse fs1 csvFile1 = Return mapping /\
        loadMapping parse fs2 csvFile2 = Return mapping /\
        forall before row after,
          records = before ++ row :: after ->
          old_value row <> "__proto__" ->
          (forall row', In row' after -> old_value row' <> old_value row) ->
          mapping !! old_value row = Some (new_value row)) /\
  sampleParse protoText {| columns := true; trim := true |}
  = Return [mkRow "__proto__" "201"; mkRow "__proto__" "202"] /\
  loadMapping sampleParse protoFs "mapping.csv" = Return ∅ /\
  js_get ∅ "__proto__" = JsObjectPrototype.
Proof.
  split; [|split; [reflexivity|split; [|reflexivity]]].
  - intros parse fs1 fs2 csvFile1 csvFile2 fileContent records H1 H2 Hparse.
    exists (foldl assignRow ∅ records).
    split; [exact (loadMapping_returns _ _ _ _ _ H1 Hparse)|].
    split; [exact (loadMapping_returns _ _ _ _ _ H2 Hparse)|].
    intros before row after -> Hkey Hne.
    apply foldl_assignRow_last; assumption.
  - rewrite (loadMapping_returns sampleParse protoFs "mapping.csv" protoText
               [mkRow "__proto__" "201"; mkRow "__proto__" "202"] eq_refl eq_refl).
    reflexivity.
Qed.
(** ** Task Fetcher *)

Section FetcherProperties.

Variable cfg : Config.
Variable projectGid : string.

Lemma cursors_cons_more r pages o :
  continuation (json r) = Some o -> cursors (r :: pages) = o :: cursors pages.
Proof. intros H. unfold cursors. simpl. rewrite H. reflexivity. Qed.

Lemma cursors_length pages : Forall has_more pages -> length (cursors pages) = length pages.
Proof.
  induction 1 as [|r pages [_ Hr] _ IH]; [reflexivity|].
  destruct (continuation (json r)) as [o|] eqn:Ho; [|contradiction].
  rewrite (cursors_cons_more _ _ _ Ho). simpl. f_equal. exact IH.
Qed.

(** One turn of the loop, as the source writes it: the request, the
    test of response.ok, and the choice between another turn and the
    end of the loop. *)
Lemma fetchPages_turn network url tasks :
  fetchPages cfg projectGid network url tasks =
  (response <- fetch (taskRequest cfg url) ;;
   if negb (ok response) then
     throw (Error ("Failed to fetch tasks: " ++ text response))
   else
     let page := json response in
     match continuation page with
     | Some offset =>
         fun network' =>
           fetchPages cfg projectGid network' (nextURL projectGid offset)
                      (tasks ++ data page)
     | None => ret (tasks ++ data page)
     end) network.
Proof.
  destruct network as [|response network']; [reflexivity|].
  unfold bind, fetch. simpl.
  destruct (ok response); simpl; [|reflexivity].
  destruct (continuation (json response)) as [o|]; [|reflexivity].
  destruct (fetchPages cfg projectGid network' (nextURL projectGid o)
                       (tasks ++ data (json response))) as [[events network''] c].
  reflexivity.
Qed.

Lemma fetchPages_all pages : forall last rest url tasks,
  Forall has_more pages ->
  ok last = true ->
  continuation (json last) = None ->
  fetchPages cfg projectGid (pages ++ last :: rest) url tasks =
  (requests cfg (url :: map (nextURL projectGid) (cursors pages)), rest,
   Return (tasks ++ concat (map (fun r => data (json r)) (pages ++ [last])))).
Proof.
  induction pages as [|r pages IH]; intros last rest url tasks Hmore Hok Hend.
  - cbn [app fetchPages]. rewrite Hok, Hend. simpl. rewrite app_nil_r. reflexivity.
  - inversion Hmore as [|? ? [Hr Hc] Hmore']; subst.
    destruct (continuation (json r)) as [o|] eqn:Ho; [|contradiction].
    rewrite (cursors_cons_more _ _ _ Ho).
    cbn [app fetchPages]. rewrite Hr, Ho. cbn [negb].
    rewrite (IH last rest _ _ Hmore' Hok Hend).
    simpl. rewrite <- app_assoc. reflexivity.
Qed.

Lemma fetchPages_abort pages : forall bad rest url tasks,
  Forall has_more pages ->
  ok bad = false ->
  fetchPages cfg projectGid (pages ++ bad :: rest) url tasks =
  (requests cfg (url :: map (nextURL projectGid) (cursors pages)), rest,
   Throw (Error ("Failed to fetch tasks: " ++ text bad))).
Proof.
  induction pages as [|r pages IH]; intros bad rest url tasks Hmore Hbad.
  - cbn [app fetchPages]. rewrite Hbad. reflexivity.
  - inversion Hmore as [|? ? [Hr Hc] Hmore']; subst.
    destruct (continuation (json r)) as [o|] eqn:Ho; [|contradiction].
    rewrite (cursors_cons_more _ _ _ Ho).
    cbn [app fetchPages]. rewrite Hr, Ho. cbn [negb].
    rewrite (IH bad rest _ _ Hmore' Hbad). reflexivity.
Qed.

Lemma requests_no_update urls : filter is_update (requests cfg urls) = [].
Proof. induction urls as [|u urls IH]; [reflexivity|exact IH]. Qed.

(** C7: when the responses are successful pages, each but the last
    carrying a cursor and the last carrying none, the fetcher returns
    the tasks of the pages concatenated in page order, whose number is
    the sum of the pages' lengths; it sends one request per page, the
    first without offset and each next one with the cursor of the page
    before; and it leaves every later response unread. *)
Theorem C7_fetch_concatenates_pages (pages : list Response) last rest :
  Forall has_more pages ->
  ok last = true ->
  continuation (json last) = None ->
  let result := getAllProjectTasks cfg projectGid (pages ++ last :: rest) in
  let all := pages ++ [last] in
  exists tasks,
    completion_of result = Return tasks /\
    tasks = concat (map (fun r => data (json r)) all) /\
    length tasks = list_sum (map (fun r => length (data (json r))) all) /\
    events_of result
    = requests cfg (firstURL projectGid :: map (nextURL projectGid) (cursors pages)) /\
    length (events_of result) = length all /\
    network_of result = rest.
Proof.
  intros Hmore Hok Hend. simpl.
  unfold getAllProjectTasks.
  rewrite (fetchPages_all pages last rest _ _ Hmore Hok Hend).
  exists (concat (map (fun r => data (json r)) (pages ++ [last]))).
  unfold completion_of, events_of, network_of. simpl.
  repeat split.
  - rewrite length_concat, map_map. reflexivity.
  - unfold requests. rewrite !length_map, cursors_length by exact Hmore.
    rewrite length_app. simpl. lia.
Qed.

(** C8: when a page request is answered by a response that is not ok,
    after any number of successful pages, the fetcher throws an error
    whose message carries the response body and returns no task list;
    the driver then ends in its catch clause without a single update
    request, with that error whenever the mapping was loaded. *)
Theorem C8_fetch_failure_aborts (pages : list Response) bad rest :
  Forall has_more pages ->
  ok bad = false ->
  completion_of (getAllProjectTasks cfg projectGid (pages ++ bad :: rest))
  = Throw (Error ("Failed to fetch tasks: " ++ text bad)) /\
  network_of (getAllProjectTasks cfg projectGid (pages ++ bad :: rest)) = rest /\
  forall (parse : Parser) fs,
    ASANA_PROJECT_GID cfg = projectGid ->
    (exists err, outcome_of (main cfg parse fs (pages ++ bad :: rest)) = Caught err) /\
    filter is_update (fst (fst (main cfg parse fs (pages ++ bad :: rest)))) = [] /\
    forall mapping,
      loadMapping parse fs (CSV_MAPPING_FILE cfg) = Return mapping ->
      outcome_of (main cfg parse fs (pages ++ bad :: rest))
      = Caught (Error ("Failed to fetch tasks: " ++ text bad)).
Proof.
  intros Hmore Hbad.
  unfold getAllProjectTasks.
  rewrite (fetchPages_abort pages bad rest _ _ Hmore Hbad).
  split; [reflexivity|]. split; [reflexivity|].
  intros parse fs Hgid.
  unfold main, bind, lift, getAllProjectTasks.
  destruct (loadMapping parse fs (CSV_MAPPING_FILE cfg)) as [mapping|e].
  - rewrite Hgid, (fetchPages_abort pages bad rest _ _ Hmore Hbad). simpl.
    split; [eexists; reflexivity|]. split; [apply requests_no_update|].
    intros mapping' _. reflexivity.
  - simpl. split; [eexists; reflexivity|]. split; [reflexivity|].
    intros mapping' H. discriminate H.
Qed.

End FetcherProperties.

Lemma C7_fetch_concatenates_pages_witness :
  Forall has_more [mkPage [taskA; taskB] (Some "x")] /\
  ok (mkPage [taskC; taskD] None) = true /\
  continuation (json (mkPage [taskC; taskD] None)) = None /\
  exists tasks,
    completion_of
      (getAllProjectTasks sampleConfig "1200"
         [mkPage [taskA; taskB] (Some "x"); mkPage [taskC; taskD] None; okResponse])
    = Return tasks /\
    tasks = [taskA; taskB; taskC; taskD] /\
    length tasks = 4 /\
    length (events_of
      (getAllProjectTasks sampleConfig "1200"
         [mkPage [taskA; taskB] (Some "x"); mkPage [taskC; taskD] None; okResponse])) = 2 /\
    network_of
      (getAllProjectTasks sampleConfig "1200"
         [mkPage [taskA; taskB] (Some "x"); mkPage [taskC; taskD] None; okResponse])
    = [okResponse].
Proof.
  assert (Hmore : Forall has_more [mkPage [taskA; taskB] (Some "x")]).
  { constructor; [|constructor]. split; [reflexivity|]. simpl. discriminate. }
  split; [exact Hmore|]. split; [reflexivity|]. split; [reflexivity|].
  destruct (C7_fetch_concatenates_pages sampleConfig "1200"
              [mkPage [taskA; taskB] (Some "x")] (mkPage [taskC; taskD] None)
              [okResponse] Hmore eq_refl eq_refl)
    as [tasks [Hret [Htasks [Hlen [_ [Hreq Hrest]]]]]].
  exists tasks. split; [exact Hret|]. split; [exact Htasks|].
  split; [exact Hlen|]. split; [exact Hreq|exact Hrest].
Defined.

Lemma C8_fetch_failure_aborts_witness :
  Forall has_more [mkPage [taskA; taskB] (Some "x")] /\
  ok (failResponse "Service Unavailable") = false /\
  completion_of
    (getAllProjectTasks sampleConfig "1200"
       [mkPage [taskA; taskB] (Some "x"); failResponse "Service Unavailable"; okResponse])
  = Throw (Error "Failed to fetch tasks: Service Unavailable") /\
  outcome_of
    (main sampleConfig sampleParse sampleFs
       [mkPage [taskA; taskB] (Some "x"); failResponse "Service Unavailable"; okResponse])
  = Caught (Error "Failed to fetch tasks: Service Unavailable").
Proof.
  assert (Hmore : Forall has_more [mkPage [taskA; taskB] (Some "x")]).
  { constructor; [|constructor]. split; [reflexivity|]. simpl. discriminate. }
  split; [exact Hmore|]. split; [reflexivity|].
  destruct (C8_fetch_failure_aborts sampleConfig "1200"
              [mkPage [taskA; taskB] (Some "x")] (failResponse "Service Unavailable")
              [okResponse] Hmore eq_refl)
    as [Hthrow [_ Hmain]].
  split; [exact Hthrow|].
  destruct (Hmain sampleParse sampleFs eq_refl) as [_ [_ Hcaught]].
  apply (Hcaught (foldl assignRow ∅ sampleRecords)).
  apply (loadMapping_returns _ _ _ sampleText); reflexivity.
Defined.

(** ** Task Updater and Migration Driver *)

Section DriverProperties.

Variable cfg : Config.

Lemma selected_truthy field g :
  selected field = Some g -> truthy (JsString g) = true.
Proof.
  unfold selected. destruct (enum_value field) as [ev|]; [|discriminate].
  destruct (enum_gid ev) as [g'|]; [|discriminate].
  destruct (truthy (JsString g')) eqn:Hg; [|discriminate].
  intros [= <-]. exact Hg.
Qed.

Lemma selected_unset field : enum_value field = None -> selected field = None.
Proof. unfold selected. intros ->. reflexivity. Qed.

(** The break of the inner loop: the search is the first field with the
    old field's gid, and the value is read off that field alone. *)
Lemma findOldEnumGid_oldField customFields :
  findOldEnumGid cfg customFields
  = match oldField cfg customFields with
    | Some field => selected field
    | None => None
    end.
Proof.
  unfold oldField. induction customFields as [|f customFields IH]; simpl; [reflexivity|].
  destruct (String.eqb (field_gid f) (OLD_FIELD_GID cfg)); [reflexivity|exact IH].
Qed.

Lemma findOldEnumGid_first before field after :
  Forall (fun f => field_gid f <> OLD_FIELD_GID cfg) before ->
  field_gid field = OLD_FIELD_GID cfg ->
  findOldEnumGid cfg (before ++ field :: after) = selected field.
Proof.
  intros Hbefore Hfield. induction Hbefore as [|f before Hf _ IH]; simpl.
  - rewrite Hfield, String.eqb_refl. reflexivity.
  - apply String.eqb_neq in Hf. rewrite Hf. exact IH.
Qed.

Lemma findOldEnumGid_truthy customFields g :
  findOldEnumGid cfg customFields = Some g -> truthy (JsString g) = true.
Proof.
  rewrite findOldEnumGid_oldField.
  destruct (oldField cfg customFields) as [field|]; [|discriminate].
  apply selected_truthy.
Qed.

(** The updater resolves to undefined once its request is answered. *)
Lemma updateTaskCustomField_answered taskGid newValue response rest :
  updateTaskCustomField cfg taskGid newValue (response :: rest)
  = ([EvFetch (updateRequest cfg taskGid newValue)], rest, Return JsUndefined).
Proof.
  unfold updateTaskCustomField, bind, fetch, ret.
  destruct (ok response); reflexivity.
Qed.

Lemma processTask_no_fields mapping counters task network :
  custom_fields task = None \/ custom_fields task = Some [] ->
  processTask cfg mapping counters task network = ([], network, Return counters).
Proof. unfold processTask. intros [-> | ->]; reflexivity. Qed.

Lemma processTask_no_old_value mapping counters task customFields network :
  custom_fields task = Some customFields ->
  findOldEnumGid cfg customFields = None ->
  processTask cfg mapping counters task network = ([], network, Return counters).
Proof.
  unfold processTask. intros -> Hfind.
  destruct customFields as [|f customFields]; [reflexivity|].
  rewrite Hfind. reflexivity.
Qed.

Lemma processTask_falsy mapping counters task customFields oldEnumGid network :
  custom_fields task = Some customFields ->
  findOldEnumGid cfg customFields = Some oldEnumGid ->
  truthy (js_get mapping oldEnumGid) = false ->
  processTask cfg mapping counters task network = ([], network, Return counters).
Proof.
  unfold processTask. intros -> Hfind Hfalsy.
  destruct customFields as [|f customFields]; [reflexivity|].
  rewrite Hfind. cbv zeta. rewrite Hfalsy.
  destruct (negb (truthy (JsString oldEnumGid))); reflexivity.
Qed.

Lemma processTask_attempt mapping counters task customFields oldEnumGid response rest :
  custom_fields task = Some customFields ->
  findOldEnumGid cfg customFields = Some oldEnumGid ->
  truthy (js_get mapping oldEnumGid) = true ->
  processTask cfg mapping counters task (response :: rest)
  = ([EvFetch (updateRequest cfg (task_gid task) (js_get mapping oldEnumGid));
      EvTimeout 200],
     rest,
     Return {| tasksAttempted := S (tasksAttempted counters);
               tasksUpdated := tasksUpdated counters |}).
Proof.
  unfold processTask. intros -> Hfind Htruthy.
  destruct customFields as [|f customFields]; [discriminate Hfind|].
  rewrite Hfind, (findOldEnumGid_truthy _ _ Hfind). cbv zeta. rewrite Htruthy.
  cbn [negb]. unfold bind at 1.
  rewrite updateTaskCustomField_answered. reflexivity.
Qed.

End DriverProperties.

(** C1, what the code does: whatever the response to the update request,
    ok or not, the updater resolves to undefined, so the driver's test of
    the returned value never succeeds.  On a run over the single task A,
    whose value 101 is mapped to 201 and whose update the service
    accepts, the driver counts one attempted and no successful update. *)
Theorem C1_update_outcome_not_returned :
  (forall cfg taskGid newValue response rest,
      completion_of (updateTaskCustomField cfg taskGid newValue (response :: rest))
      = Return JsUndefined) /\
  ok okResponse = true /\
  main sampleConfig sampleParse sampleFs [mkPage [taskA] None; okResponse]
  = ([EvFetch (taskRequest sampleConfig (firstURL "1200"));
      EvFetch (updateRequest sampleConfig "1" (JsString "201"));
      EvTimeout 200],
     [],
     Done {| tasksAttempted := 1; tasksUpdated := 0 |}).
Proof.
  split; [|split].
  - intros cfg taskGid newValue response rest.
    rewrite updateTaskCustomField_answered. reflexivity.
  - reflexivity.
  - vm_compute. reflexivity.
Qed.

(** C2 (as amended): when the first custom field carrying the old
    field's gid has a selected value with a non-empty gid, and the table
    binds that gid to a non-empty new gid, the driver sends exactly one
    update request for the task, for the task's gid and with that new
    gid as the value of the new field, and the attempted counter grows
    by exactly one. *)
Theorem C2_mapped_task_updated_once
        cfg (mapping : gmap string string) counters task customFields field
        oldEnumGid newEnumGid response rest :
  custom_fields task = Some customFields ->
  oldField cfg customFields = Some field ->
  selected field = Some oldEnumGid ->
  mapping !! oldEnumGid = Some newEnumGid ->
  newEnumGid <> "" ->
  let result := processTask cfg mapping counters task (response :: rest) in
  filter is_update (events_of result)
  = [EvFetch (updateRequest cfg (task_gid task) (JsString newEnumGid))] /\
  network_of result = rest /\
  exists counters',
    completion_of result = Return counters' /\
    tasksAttempted counters' = S (tasksAttempted counters).
Proof.
  intros Hcf Hold Hsel Hmap Hne. simpl.
  assert (Hfind : findOldEnumGid cfg customFields = Some oldEnumGid).
  { rewrite findOldEnumGid_oldField, Hold. exact Hsel. }
  assert (Hget : js_get mapping oldEnumGid = JsString newEnumGid).
  { unfold js_get. rewrite Hmap. reflexivity. }
  assert (Htruthy : truthy (js_get mapping oldEnumGid) = true).
  { rewrite Hget. simpl. apply String.eqb_neq in Hne. rewrite Hne. reflexivity. }
  rewrite (processTask_attempt cfg mapping counters task customFields oldEnumGid
             response rest Hcf Hfind Htruthy), Hget.
  split; [reflexivity|]. split; [reflexivity|].
  eexists. split; reflexivity.
Qed.

Lemma C2_mapped_task_updated_once_witness :
  custom_fields taskA = Some [mkField "33" (Some "7"); mkField "11" (Some "101")] /\
  oldField sampleConfig [mkField "33" (Some "7"); mkField "11" (Some "101")]
  = Some (mkField "11" (Some "101")) /\
  selected (mkField "11" (Some "101")) = Some "101" /\
  sampleMapping !! "101" = Some "201" /\
  "201" <> "" /\
  filter is_update
    (events_of (processTask sampleConfig sampleMapping noCounters taskA [failResponse "no"]))
  = [EvFetch (updateRequest sampleConfig "1" (JsString "201"))].
Proof.
  assert (Hmap : sampleMapping !! "101" = Some "201") by reflexivity.
  assert (Hne : "201" <> "") by discriminate.
  repeat (split; [first [reflexivity | assumption]|]).
  exact (proj1 (C2_mapped_task_updated_once sampleConfig sampleMapping noCounters taskA
                  _ _ "101" "201" (failResponse "no") [] eq_refl eq_refl eq_refl Hmap Hne)).
Defined.

(** C2, the claim as stated fails: the file binds 101 to an empty
    new_value, the loaded table has that entry, task A has the old field
    set to 101, and the driver sends no request and counts no attempt. *)
Lemma C2_counterexample_empty_new_value :
  sampleParse emptyNewText {| columns := true; trim := true |} = Return [mkRow "101" ""] /\
  exists mapping,
    loadMapping sampleParse emptyNewFs "mapping.csv" = Return mapping /\
    mapping !! "101" = Some "" /\
    oldField sampleConfig [mkField "33" (Some "7"); mkField "11" (Some "101")]
    = Some (mkField "11" (Some "101")) /\
    selected (mkField "11" (Some "101")) = Some "101" /\
    processTask sampleConfig mapping noCounters taskA [okResponse]
    = ([], [okResponse], Return noCounters).
Proof.
  split; [reflexivity|].
  exists (foldl assignRow ∅ [mkRow "101" ""]).
  split; [apply (loadMapping_returns _ _ _ emptyNewText); reflexivity|].
  split; [vm_compute; reflexivity|].
  split; [reflexivity|]. split; [reflexivity|].
  vm_compute. reflexivity.
Qed.

(** C4: a task without custom fields (none at all, or an empty list),
    and a task whose old field carries no selected-value descriptor,
    cause no request: the driver moves on with the counters unchanged. *)
Theorem C4_no_fields_or_unset_never_updated
        cfg (mapping : gmap string string) counters task network :
  custom_fields task = None \/
  custom_fields task = Some [] \/
  (exists customFields field,
      custom_fields task = Some customFields /\
      oldField cfg customFields = Some field /\
      enum_value field = None) ->
  processTask cfg mapping counters task network = ([], network, Return counters).
Proof.
  intros [H|[H|[customFields [field [Hcf [Hold Hev]]]]]].
  - apply processTask_no_fields. left. exact H.
  - apply processTask_no_fields. right. exact H.
  - apply (processTask_no_old_value cfg mapping counters task customFields network Hcf).
    rewrite findOldEnumGid_oldField, Hold. apply selected_unset. exact Hev.
Qed.

Lemma C4_no_fields_or_unset_never_updated_witness :
  processTask sampleConfig sampleMapping noCounters taskE [okResponse]
  = ([], [okResponse], Return noCounters) /\
  processTask sampleConfig sampleMapping noCounters taskC [okResponse]
  = ([], [okResponse], Return noCounters).
Proof.
  split.
  - apply C4_no_fields_or_unset_never_updated. left. reflexivity.
  - apply C4_no_fields_or_unset_never_updated. right. right.
    exists [mkField "11" None], (mkField "11" None).
    split; [reflexivity|]. split; reflexivity.
Defined.

Lemma selected_set field ev g :
  enum_value field = Some ev -> enum_gid ev = Some g -> g <> "" ->
  selected field = Some g.
Proof.
  intros Hev Hg Hne. unfold selected. rewrite Hev, Hg. simpl.
  apply String.eqb_neq in Hne. rewrite Hne. reflexivity.
Qed.

Lemma selected_no_value field :
  enum_value field = None \/
  (exists ev, enum_value field = Some ev /\ (enum_gid ev = None \/ enum_gid ev = Some "")) ->
  selected field = None.
Proof.
  unfold selected. intros [-> | [ev [-> [-> | ->]]]]; reflexivity.
Qed.

Lemma oldField_first cfg before field after :
  Forall (fun f => field_gid f <> OLD_FIELD_GID cfg) before ->
  field_gid field = OLD_FIELD_GID cfg ->
  oldField cfg (before ++ field :: after) = Some field.
Proof.
  intros Hbefore Hfield. unfold oldField.
  induction Hbefore as [|f before Hf _ IH]; simpl.
  - rewrite Hfield, String.eqb_refl. reflexivity.
  - apply String.eqb_neq in Hf. rewrite Hf. exact IH.
Qed.

Lemma oldField_absent cfg customFields :
  Forall (fun f => field_gid f <> OLD_FIELD_GID cfg) customFields ->
  oldField cfg customFields = None.
Proof.
  intros H. unfold oldField. induction H as [|f customFields Hf _ IH]; simpl.
  - reflexivity.
  - apply String.eqb_neq in Hf. rewrite Hf. exact IH.
Qed.

(** C3, what the code does.  When the gid of the selected value of the
    old field is the old_value of no record of the file and is not a
    name inherited from Object.prototype, the driver sends no request
    for the task and leaves the counters as they were.  But the table is
    a plain object, and the test of mapping[oldEnumGid] also finds the
    inherited names: for task H, whose value is constructor, and the
    table of the sample file, which has no such key, the driver sends
    an update request, whose body has no custom field at all, pauses
    and counts an attempt. *)
Theorem C3_inherited_name_is_updated :
  (forall cfg (parse : Parser) fs csvFile fileContent records
          (mapping : gmap string string) counters task customFields field ev
          oldEnumGid network,
      fs !! csvFile = Some fileContent ->
      parse fileContent {| columns := true; trim := true |} = Return records ->
      (forall row, In row records -> old_value row <> oldEnumGid) ->
      inherited oldEnumGid = JsUndefined ->
      loadMapping parse fs csvFile = Return mapping ->
      custom_fields task = Some customFields ->
      oldField cfg customFields = Some field ->
      enum_value field = Some ev ->
      enum_gid ev = Some oldEnumGid ->
      mapping !! oldEnumGid = None /\
      processTask cfg mapping counters task network = ([], network, Return counters)) /\
  (exists mapping,
      loadMapping sampleParse sampleFs "mapping.csv" = Return mapping /\
      mapping !! "constructor" = None /\
      processTask sampleConfig mapping noCounters taskH [okResponse]
      = ([EvFetch (updateRequest sampleConfig "8" (JsFunction "constructor"));
          EvTimeout 200],
         [],
         Return {| tasksAttempted := 1; tasksUpdated := 0 |}) /\
      body_custom_fields (updateRequest sampleConfig "8" (JsFunction "constructor")) = []).
Proof.
  split.
  - intros cfg parse fs csvFile fileContent records mapping counters task customFields
           field ev oldEnumGid network Hfile Hparse Hrows Hinh Hload Hcf Hold Hev Hgid.
    rewrite (loadMapping_returns _ _ _ _ _ Hfile Hparse) in Hload. injection Hload as <-.
    assert (Hmap : foldl assignRow ∅ records !! oldEnumGid = None).
    { rewrite foldl_assignRow_other; [apply lookup_empty|exact Hrows]. }
    split; [exact Hmap|].
    destruct (findOldEnumGid cfg customFields) as [g|] eqn:Hfind.
    + apply (processTask_falsy cfg _ counters task customFields g network Hcf Hfind).
      rewrite findOldEnumGid_oldField, Hold in Hfind.
      unfold selected in Hfind. rewrite Hev, Hgid in Hfind.
      destruct (truthy (JsString oldEnumGid)); [|discriminate Hfind].
      injection Hfind as <-. rewrite (js_get_absent _ _ Hmap Hinh). reflexivity.
    + exact (processTask_no_old_value cfg _ counters task customFields network Hcf Hfind).
  - exists (foldl assignRow ∅ sampleRecords).
    split; [apply (loadMapping_returns _ _ _ sampleText); reflexivity|].
    split; [vm_compute; reflexivity|].
    split; vm_compute; reflexivity.
Qed.

(** C9, what the code does.  On the path of an attempted update the
    driver awaits the 200 ms timer right after the update request,
    whether the response is ok or not, and nothing else happens for the
    task.  No timer is awaited for a task without custom fields, without
    the old field, with the old field unset, or with a value that is
    neither a key of the table nor a name inherited from
    Object.prototype.  But for task H, whose value constructor is not
    in the table, the test of mapping[oldEnumGid] succeeds on the
    inherited name: the task is not skipped, and the timer is
    awaited. *)
Theorem C9_pause_follows_each_attempt :
  (forall cfg (mapping : gmap string string) counters task customFields field
          oldEnumGid newEnumGid response rest,
      custom_fields task = Some customFields ->
      oldField cfg customFields = Some field ->
      selected field = Some oldEnumGid ->
      mapping !! oldEnumGid = Some newEnumGid ->
      newEnumGid <> "" ->
      events_of (processTask cfg mapping counters task (response :: rest))
      = [EvFetch (updateRequest cfg (task_gid task) (JsString newEnumGid));
         EvTimeout 200]) /\
  (forall cfg (mapping : gmap string string) counters task network,
      custom_fields task = None \/
      custom_fields task = Some [] \/
      (exists customFields,
          custom_fields task = Some customFields /\
          (Forall (fun f => field_gid f <> OLD_FIELD_GID cfg) customFields \/
           exists before field after,
             customFields = before ++ field :: after /\
             Forall (fun f => field_gid f <> OLD_FIELD_GID cfg) before /\
             field_gid field = OLD_FIELD_GID cfg /\
             (enum_value field = None \/
              exists ev,
                enum_value field = Some ev /\
                (enum_gid ev = None \/
                 exists oldEnumGid,
                   enum_gid ev = Some oldEnumGid /\
                   mapping !! oldEnumGid = None /\
                   inherited oldEnumGid = JsUndefined)))) ->
      filter is_timeout (events_of (processTask cfg mapping counters task network))
      = []) /\
  sampleMapping !! "constructor" = None /\
  events_of (processTask sampleConfig sampleMapping noCounters taskH [failResponse "no"])
  = [EvFetch (updateRequest sampleConfig "8" (JsFunction "constructor")); EvTimeout 200].
Proof.
  split; [|split; [|split; [reflexivity|vm_compute; reflexivity]]].
  - intros cfg mapping counters task customFields field oldEnumGid newEnumGid response rest
           Hcf Hold Hsel Hmap Hne.
    assert (Hfind : findOldEnumGid cfg customFields = Some oldEnumGid).
    { rewrite findOldEnumGid_oldField, Hold. exact Hsel. }
    rewrite (processTask_attempt cfg mapping counters task customFields oldEnumGid
               response rest Hcf Hfind).
    + rewrite (js_get_own _ _ _ Hmap). reflexivity.
    + rewrite (js_get_own _ _ _ Hmap). simpl.
      apply String.eqb_neq in Hne. rewrite Hne. reflexivity.
  - intros cfg mapping counters task network Hskip.
    assert (H : processTask cfg mapping counters task network
                = ([], network, Return counters)); [|rewrite H; reflexivity].
    destruct Hskip as [H|[H|[customFields [Hcf Hskip]]]].
    + apply processTask_no_fields. left. exact H.
    + apply processTask_no_fields. right. exact H.
    + destruct Hskip as [Habsent|[before [field [after [-> [Hbefore [Hfield Hvalue]]]]]]].
      * apply (processTask_no_old_value cfg mapping counters task customFields network Hcf).
        rewrite findOldEnumGid_oldField, (oldField_absent cfg _ Habsent). reflexivity.
      * pose proof (oldField_first cfg before field after Hbefore Hfield) as Hold.
        destruct Hvalue as [Hev|[ev [Hev [Hgid|[g [Hgid [Hmap Hinh]]]]]]].
        -- apply (processTask_no_old_value cfg mapping counters task _ network Hcf).
           rewrite findOldEnumGid_oldField, Hold. apply selected_no_value. left. exact Hev.
        -- apply (processTask_no_old_value cfg mapping counters task _ network Hcf).
           rewrite findOldEnumGid_oldField, Hold. apply selected_no_value.
           right. exists ev. auto.
        -- destruct (findOldEnumGid cfg (before ++ field :: after)) as [g'|] eqn:Hfind.
           ++ apply (processTask_falsy cfg mapping counters task _ g' network Hcf Hfind).
              rewrite findOldEnumGid_oldField, Hold in Hfind.
              unfold selected in Hfind. rewrite Hev, Hgid in Hfind.
              destruct (truthy (JsString g)); [|discriminate Hfind].
              injection Hfind as <-. rewrite (js_get_absent _ _ Hmap Hinh). reflexivity.
           ++ exact (processTask_no_old_value cfg mapping counters task _ network Hcf Hfind).
Qed.

(** C10: among the custom fields of a task the first one that carries
    the old field's gid is the only one consulted, whatever the fields
    after it hold, another field with the old field's gid included.
    When that first field has a selected value with a non-empty gid,
    this gid is the old value looked up in the table: with an entry for
    it whose new gid is not empty, the update request carries that new
    gid; with no entry for it and no inherited name, the task is
    skipped.  When that first field has no value the task is skipped. *)
Theorem C10_first_old_field_wins
        cfg (before : list CustomField) field after task :
  Forall (fun f => field_gid f <> OLD_FIELD_GID cfg) before ->
  field_gid field = OLD_FIELD_GID cfg ->
  custom_fields task = Some (before ++ field :: after) ->
  (forall ev oldEnumGid,
      enum_value field = Some ev ->
      enum_gid ev = Some oldEnumGid ->
      oldEnumGid <> "" ->
      findOldEnumGid cfg (before ++ field :: after) = Some oldEnumGid /\
      (forall (mapping : gmap string string) counters newEnumGid response rest,
          mapping !! oldEnumGid = Some newEnumGid ->
          newEnumGid <> "" ->
          processTask cfg mapping counters task (response :: rest)
          = ([EvFetch (updateRequest cfg (task_gid task) (JsString newEnumGid));
              EvTimeout 200],
             rest,
             Return {| tasksAttempted := S (tasksAttempted counters);
                       tasksUpdated := tasksUpdated counters |})) /\
      (forall (mapping : gmap string string) counters network,
          mapping !! oldEnumGid = None ->
          inherited oldEnumGid = JsUndefined ->
          processTask cfg mapping counters task network
          = ([], network, Return counters))) /\
  (enum_value field = None \/
   (exists ev, enum_value field = Some ev /\
               (enum_gid ev = None \/ enum_gid ev = Some "")) ->
   findOldEnumGid cfg (before ++ field :: after) = None /\
   forall (mapping : gmap string string) counters network,
     processTask cfg mapping counters task network = ([], network, Return counters)).
Proof.
  intros Hbefore Hfield Hcf.
  assert (Hfind : findOldEnumGid cfg (before ++ field :: after) = selected field)
    by (apply findOldEnumGid_first; assumption).
  split.
  - intros ev oldEnumGid Hev Hgid Hne.
    rewrite (selected_set field ev oldEnumGid Hev Hgid Hne) in Hfind.
    split; [exact Hfind|]. split.
    + intros mapping counters newEnumGid response rest Hmap Hnew.
      rewrite (processTask_attempt cfg mapping counters task _ oldEnumGid
                 response rest Hcf Hfind).
      * rewrite (js_get_own _ _ _ Hmap). reflexivity.
      * rewrite (js_get_own _ _ _ Hmap). simpl.
        apply String.eqb_neq in Hnew. rewrite Hnew. reflexivity.
    + intros mapping counters network Hmap Hinh.
      apply (processTask_falsy cfg mapping counters task _ oldEnumGid network Hcf Hfind).
      rewrite (js_get_absent _ _ Hmap Hinh). reflexivity.
  - intros Hnone. rewrite (selected_no_value field Hnone) in Hfind.
    split; [exact Hfind|]. intros mapping counters network.
    exact (processTask_no_old_value cfg mapping counters task _ network Hcf Hfind).
Qed.

Lemma C10_first_old_field_wins_witness :
  findOldEnumGid sampleConfig
    ([mkField "33" (Some "7")] ++ mkField "11" (Some "101") :: [mkField "11" (Some "102")])
  = Some "101" /\
  processTask sampleConfig sampleMapping noCounters taskI [okResponse]
  = ([EvFetch (updateRequest sampleConfig "9" (JsString "201")); EvTimeout 200],
     [],
     Return {| tasksAttempted := 1; tasksUpdated := 0 |}) /\
  findOldEnumGid sampleConfig ([] ++ mkField "11" None :: [mkField "11" (Some "101")])
  = None /\
  processTask sampleConfig sampleMapping noCounters taskF [okResponse]
  = ([], [okResponse], Return noCounters).
Proof.
  assert (Hbefore : Forall (fun f => field_gid f <> OLD_FIELD_GID sampleConfig)
                           [mkField "33" (Some "7")]).
  { constructor; [discriminate|constructor]. }
  assert (Hnil : Forall (fun f => field_gid f <> OLD_FIELD_GID sampleConfig) [])
    by constructor.
  assert (Hne : "101" <> "") by discriminate.
  assert (Hnew : "201" <> "") by discriminate.
  assert (Hmap : sampleMapping !! "101" = Some "201") by reflexivity.
  destruct (C10_first_old_field_wins sampleConfig
              [mkField "33" (Some "7")] (mkField "11" (Some "101"))
              [mkField "11" (Some "102")] taskI Hbefore eq_refl eq_refl)
    as [Hset _].
  destruct (Hset {| enum_gid := Some "101" |} "101" eq_refl eq_refl Hne)
    as [Hfind [Hupdate _]].
  destruct (C10_first_old_field_wins sampleConfig
              [] (mkField "11" None) [mkField "11" (Some "101")] taskF
              Hnil eq_refl eq_refl)
    as [_ Hunset].
  destruct (Hunset (or_introl eq_refl)) as [Hnone Hskip].
  split; [exact Hfind|]. split.
  - exact (Hupdate sampleMapping noCounters "201" okResponse [] Hmap Hnew).
  - split; [exact Hnone|]. exact (Hskip sampleMapping noCounters [okResponse]).
Defined.
(** ** The whole loop of the driver *)

Lemma processTask_planned cfg (mapping : gmap string string) counters task response rest
      newValue :
  planned cfg mapping task = Some newValue ->
  processTask cfg mapping counters task (response :: rest)
  = ([EvFetch (updateRequest cfg (task_gid task) newValue); EvTimeout 200], rest,
     Return {| tasksAttempted := S (tasksAttempted counters);
               tasksUpdated := tasksUpdated counters |}).
Proof.
  unfold planned. intros H.
  destruct (custom_fields task) as [customFields|] eqn:Hcf; [|discriminate H].
  destruct (findOldEnumGid cfg customFields) as [g|] eqn:Hfind; [|discriminate H].
  destruct (truthy (js_get mapping g)) eqn:Htruthy; [|discriminate H].
  injection H as <-.
  exact (processTask_attempt cfg mapping counters task customFields g response rest
           Hcf Hfind Htruthy).
Qed.

Lemma processTask_not_planned cfg (mapping : gmap string string) counters task network :
  planned cfg mapping task = None ->
  processTask cfg mapping counters task network = ([], network, Return counters).
Proof.
  unfold planned. intros H.
  destruct (custom_fields task) as [customFields|] eqn:Hcf.
  - destruct (findOldEnumGid cfg customFields) as [g|] eqn:Hfind.
    + destruct (truthy (js_get mapping g)) eqn:Htruthy; [discriminate H|].
      exact (processTask_falsy cfg mapping counters task customFields g network
               Hcf Hfind Htruthy).
    + exact (processTask_no_old_value cfg mapping counters task customFields network
               Hcf Hfind).
  - apply processTask_no_fields. left. exact Hcf.
Qed.

(** When the service answers every update request, the loop visits the
    tasks in order, sends for each task that is not skipped its update
    request followed by the pause, consumes one response per request,
    and ends with the attempted counter raised by the number of
    requests and the succeeded counter where it started. *)
Theorem forTasks_run cfg (mapping : gmap string string) tasks :
  forall counters network,
    length (omap (planned cfg mapping) tasks) <= length network ->
    forTasks cfg mapping counters tasks network
    = (flat_map (planned_events cfg mapping) tasks,
       drop (length (omap (planned cfg mapping) tasks)) network,
       Return {| tasksAttempted :=
                   tasksAttempted counters + length (omap (planned cfg mapping) tasks);
                 tasksUpdated := tasksUpdated counters |}).
Proof.
  induction tasks as [|task tasks IH]; intros counters network Hlen.
  - destruct counters as [a u]. simpl. unfold ret. rewrite Nat.add_0_r. reflexivity.
  - revert Hlen. cbn [forTasks flat_map omap list_omap]. unfold planned_events at 1, bind.
    destruct (planned cfg mapping task) as [newValue|] eqn:Hplan; intros Hlen.
    + destruct network as [|response rest]; [simpl in Hlen; lia|].
      rewrite (processTask_planned cfg mapping counters task response rest newValue Hplan).
      rewrite IH by (simpl in Hlen; lia).
      simpl. rewrite Nat.add_succ_r. reflexivity.
    + rewrite (processTask_not_planned cfg mapping counters task network Hplan).
      rewrite IH by exact Hlen. reflexivity.
Qed.

Lemma forTasks_run_witness :
  length (omap (planned sampleConfig sampleMapping) [taskA; taskB; taskC; taskD; taskH])
  <= length [failResponse "no"; okResponse; okResponse] /\
  forTasks sampleConfig sampleMapping noCounters [taskA; taskB; taskC; taskD; taskH]
           [failResponse "no"; okResponse; okResponse]
  = ([EvFetch (updateRequest sampleConfig "1" (JsString "201")); EvTimeout 200;
      EvFetch (updateRequest sampleConfig "8" (JsFunction "constructor")); EvTimeout 200],
     [okResponse],
     Return {| tasksAttempted := 2; tasksUpdated := 0 |}).
Proof.
  assert (Hlen : length (omap (planned sampleConfig sampleMapping)
                              [taskA; taskB; taskC; taskD; taskH])
                 <= length [failResponse "no"; okResponse; okResponse]).
  { vm_compute. repeat constructor. }
  split; [exact Hlen|].
  exact (forTasks_run sampleConfig sampleMapping [taskA; taskB; taskC; taskD; taskH]
           noCounters [failResponse "no"; okResponse; okResponse] Hlen).
Defined.

(** The scenario of the specification, run through main: the table is
    the one of the sample file, the tasks A to D come in two pages, and
    only A is updated. *)
Example main_scenario :
  main sampleConfig sampleParse sampleFs
       [mkPage [taskA; taskB] (Some "x"); mkPage [taskC; taskD] None;
        failResponse "no"]
  = ([EvFetch (taskRequest sampleConfig (firstURL "1200"));
      EvFetch (taskRequest sampleConfig (nextURL "1200" "x"));
      EvFetch (updateRequest sampleConfig "1" (JsString "201"));
      EvTimeout 200],
     [],
     Done {| tasksAttempted := 1; tasksUpdated := 0 |}).
Proof. vm_compute. reflexivity. Qed.

(** * Further properties *)

(** ** Mapping Loader: row order and size *)

Lemma foldl_assignRow_nodup (records : list Row) : forall (mapping : gmap string string) key,
  key <> "__proto__" ->
  NoDup (map old_value records) ->
  foldl assignRow mapping records !! key
  = match find (fun row => String.eqb (old_value row) key) records with
    | Some row => Some (new_value row)
    | None => mapping !! key
    end.
Proof.
  induction records as [|r records IH]; intros mapping key Hkey Hnd; [reflexivity|].
  simpl in Hnd. apply NoDup_cons in Hnd. destruct Hnd as [Hr Hnd]. simpl.
  destruct (String.eqb (old_value r) key) eqn:Hk.
  - apply String.eqb_eq in Hk. subst key.
    rewrite foldl_assignRow_other.
    + unfold assignRow. apply js_set_lookup_eq. exact Hkey.
    + intros row Hin Heq. apply Hr. rewrite <- Heq.
      apply list_elem_of_In. apply in_map. exact Hin.
  - rewrite IH by assumption.
    destruct (find _ records); [reflexivity|].
    unfold assignRow. apply js_set_lookup_ne. apply String.eqb_neq. exact Hk.
Qed.

Lemma find_key_perm (rows1 rows2 : list Row) key :
  NoDup (map old_value rows1) ->
  Permutation rows1 rows2 ->
  find (fun row => String.eqb (old_value row) key) rows1
  = find (fun row => String.eqb (old_value row) key) rows2.
Proof.
  intros Hnd Hperm. induction Hperm as [|r l l' Hperm IH|r r' l|l l' l'' H1 IH1 H2 IH2].
  - reflexivity.
  - simpl in *. apply NoDup_cons in Hnd. destruct Hnd as [_ Hnd].
    rewrite (IH Hnd). reflexivity.
  - simpl in *. apply NoDup_cons in Hnd. destruct Hnd as [Hr _].
    destruct (String.eqb (old_value r') key) eqn:H1;
      destruct (String.eqb (old_value r) key) eqn:H2; try reflexivity.
    apply String.eqb_eq in H1, H2. exfalso. apply Hr.
    rewrite H1, <- H2. left.
  - rewrite (IH1 Hnd). apply IH2.
    rewrite <- (Permutation_map old_value H1). exact Hnd.
Qed.

(** When the records the parser returns for two files are the same up
    to their order and no two of them share an old_value, the two files
    load to the same table: the order of the rows matters only among
    rows with the same old_value. *)
Theorem loadMapping_row_order_irrelevant
        (parse : Parser) fs1 fs2 csvFile1 csvFile2 content1 content2
        (records1 records2 : list Row) :
  fs1 !! csvFile1 = Some content1 ->
  fs2 !! csvFile2 = Some content2 ->
  parse content1 {| columns := true; trim := true |} = Return records1 ->
  parse content2 {| columns := true; trim := true |} = Return records2 ->
  NoDup (map old_value records1) ->
  Permutation records1 records2 ->
  loadMapping parse fs1 csvFile1 = loadMapping parse fs2 csvFile2.
Proof.
  intros H1 H2 Hp1 Hp2 Hnd Hperm.
  rewrite (loadMapping_returns _ _ _ _ _ H1 Hp1), (loadMapping_returns _ _ _ _ _ H2 Hp2).
  f_equal. apply map_eq. intros key.
  destruct (decide (key = "__proto__")) as [->|Hkey].
  - rewrite !foldl_assignRow_proto. reflexivity.
  - rewrite !foldl_assignRow_nodup.
    + rewrite (find_key_perm _ _ key Hnd Hperm). reflexivity.
    + exact Hkey.
    + rewrite <- (Permutation_map old_value Hperm). exact Hnd.
    + exact Hkey.
    + exact Hnd.
Qed.

Lemma loadMapping_row_order_irrelevant_witness :
  sampleParse plainText {| columns := true; trim := true |}
  = Return [mkRow "101" "201"; mkRow "102" "202"] /\
  sampleParse swappedText {| columns := true; trim := true |}
  = Return [mkRow "102" "202"; mkRow "101" "201"] /\
  loadMapping sampleParse plainFs "a.csv" = loadMapping sampleParse swappedFs "b.csv".
Proof.
  split; [reflexivity|]. split; [reflexivity|].
  apply (loadMapping_row_order_irrelevant sampleParse plainFs swappedFs "a.csv" "b.csv"
           plainText swappedText
           [mkRow "101" "201"; mkRow "102" "202"]
           [mkRow "102" "202"; mkRow "101" "201"]).
  - reflexivity.
  - reflexivity.
  - reflexivity.
  - reflexivity.
  - apply NoDup_cons. split.
    + intros H. apply list_elem_of_In in H. destruct H as [H|[]]. discriminate H.
    + apply NoDup_cons. split; [|apply NoDup_nil; exact I].
      intros H. apply list_elem_of_In in H. destruct H.
  - apply perm_swap.
Defined.

Lemma js_set_size (mapping : gmap string string) key value :
  size (js_set mapping key value) <= S (size mapping).
Proof.
  unfold js_set. destruct (String.eqb key "__proto__"); [lia|].
  rewrite map_size_insert. destruct (mapping !! key); simpl; lia.
Qed.

Lemma foldl_assignRow_size (records : list Row) : forall (mapping : gmap string string),
  size (foldl assignRow mapping records) <= size mapping + length records.
Proof.
  induction records as [|r records IH]; intros mapping; simpl; [lia|].
  specialize (IH (assignRow mapping r)).
  pose proof (js_set_size mapping (old_value r) (new_value r)) as Hs.
  unfold assignRow in *. lia.
Qed.

Lemma foldl_assignRow_size_nodup (records : list Row) : forall (mapping : gmap string string),
  NoDup (map old_value records) ->
  (forall row, In row records ->
               old_value row <> "__proto__" /\ mapping !! old_value row = None) ->
  size (foldl assignRow mapping records) = size mapping + length records.
Proof.
  induction records as [|r records IH]; intros mapping Hnd Hfresh; simpl; [lia|].
  simpl in Hnd. apply NoDup_cons in Hnd. destruct Hnd as [Hr Hnd].
  destruct (Hfresh r (or_introl eq_refl)) as [Hkey Hnone].
  rewrite IH.
  - unfold assignRow, js_set. apply String.eqb_neq in Hkey. rewrite Hkey.
    rewrite map_size_insert, Hnone. simpl. lia.
  - exact Hnd.
  - intros row Hin. destruct (Hfresh row (or_intror Hin)) as [Hk Hn].
    split; [exact Hk|]. unfold assignRow. rewrite js_set_lookup_ne; [exact Hn|].
    intros Heq. apply Hr. rewrite Heq. apply list_elem_of_In, in_map. exact Hin.
Qed.

(** The table never has more entries than the parser returned records,
    and it has exactly as many when no two records share an old_value
    and none has the old_value __proto__. *)
Theorem loadMapping_size (parse : Parser) fs csvFile fileContent (records : list Row) :
  fs !! csvFile = Some fileContent ->
  parse fileContent {| columns := true; trim := true |} = Return records ->
  exists mapping,
    loadMapping parse fs csvFile = Return mapping /\
    size mapping <= length records /\
    (NoDup (map old_value records) ->
     (forall row, In row records -> old_value row <> "__proto__") ->
     size mapping = length records).
Proof.
  intros Hfile Hparse. exists (foldl assignRow ∅ records).
  split; [exact (loadMapping_returns _ _ _ _ _ Hfile Hparse)|].
  split.
  - pose proof (foldl_assignRow_size records ∅) as H.
    rewrite map_size_empty in H. exact H.
  - intros Hnd Hkeys. rewrite foldl_assignRow_size_nodup.
    + rewrite map_size_empty. reflexivity.
    + exact Hnd.
    + intros row Hin. split; [exact (Hkeys row Hin)|apply lookup_empty].
Qed.

Lemma loadMapping_size_witness :
  (exists mapping,
      loadMapping sampleParse sampleFs "mapping.csv" = Return mapping /\
      size mapping <= 3) /\
  (exists mapping,
      loadMapping sampleParse plainFs "a.csv" = Return mapping /\
      size mapping = 2) /\
  (exists mapping,
      loadMapping sampleParse protoFs "mapping.csv" = Return mapping /\
      size mapping <= 2).
Proof.
  split; [|split].
  - destruct (loadMapping_size sampleParse sampleFs "mapping.csv" sampleText sampleRecords
                eq_refl eq_refl) as [mapping [Hload [Hsize _]]].
    exists mapping. split; [exact Hload|exact Hsize].
  - destruct (loadMapping_size sampleParse plainFs "a.csv" plainText
                [mkRow "101" "201"; mkRow "102" "202"] eq_refl eq_refl)
      as [mapping [Hload [_ Hsize]]].
    exists mapping. split; [exact Hload|]. apply Hsize.
    + apply NoDup_cons. split.
      * intros H. apply list_elem_of_In in H. destruct H as [H|[]]. discriminate H.
      * apply NoDup_cons. split; [|apply NoDup_nil; exact I].
        intros H. apply list_elem_of_In in H. destruct H.
    + intros row [<-|[<-|[]]]; discriminate.
  - destruct (loadMapping_size sampleParse protoFs "mapping.csv" protoText
                [mkRow "__proto__" "201"; mkRow "__proto__" "202"] eq_refl eq_refl)
      as [mapping [Hload [Hsize _]]].
    exists mapping. split; [exact Hload|exact Hsize].
Defined.

(** ** Task Fetcher: every outcome, every request *)

Lemma has_more_dec (r : Response) :
  has_more r \/ ok r = false \/ (ok r = true /\ continuation (json r) = None).
Proof.
  unfold has_more. destruct (ok r); [|auto].
  destruct (continuation (json r)) as [o|]; [|auto].
  left. split; [reflexivity|discriminate].
Qed.

Lemma has_more_split (network : list Response) :
  Forall has_more network \/
  exists pages r rest,
    network = pages ++ r :: rest /\ Forall has_more pages /\
    (ok r = false \/ (ok r = true /\ continuation (json r) = None)).
Proof.
  induction network as [|r network IH]; [left; constructor|].
  destruct (has_more_dec r) as [Hr|Hr].
  - destruct IH as [IH|[pages [r' [rest [-> [Hpages Hr']]]]]].
    + left. constructor; assumption.
    + right. exists (r :: pages), r', rest.
      split; [reflexivity|]. split; [constructor; assumption|exact Hr'].
  - right. exists [], r, network. split; [reflexivity|]. split; [constructor|exact Hr].
Qed.

Lemma fetchPages_exhausted cfg projectGid pages : forall url tasks,
  Forall has_more pages ->
  fetchPages cfg projectGid pages url tasks
  = (requests cfg (url :: map (nextURL projectGid) (cursors pages)), [],
     Throw (TypeError "fetch failed")).
Proof.
  induction pages as [|r pages IH]; intros url tasks Hmore; [reflexivity|].
  inversion Hmore as [|? ? [Hr Hc] Hmore']; subst.
  destruct (continuation (json r)) as [o|] eqn:Ho; [|contradiction].
  rewrite (cursors_cons_more _ _ _ Ho).
  cbn [fetchPages]. rewrite Hr, Ho. cbn [negb].
  rewrite (IH _ _ Hmore'). reflexivity.
Qed.

Lemma continuation_nonempty page o : continuation page = Some o -> o <> "".
Proof.
  unfold continuation. destruct (next_page page) as [np|]; [|discriminate].
  destruct (offset np) as [o'|]; [|discriminate].
  simpl. destruct (String.eqb o' "") eqn:He; [discriminate|].
  intros [= <-]. apply String.eqb_neq. exact He.
Qed.

Lemma cursors_nonempty pages o : In o (cursors pages) -> o <> "".
Proof.
  unfold cursors. induction pages as [|r pages IH]; simpl; [intros []|].
  destruct (continuation (json r)) as [o'|] eqn:Ho; [|exact IH].
  intros [<-|Hin]; [exact (continuation_nonempty _ _ Ho)|exact (IH Hin)].
Qed.

Lemma requests_page_requests cfg projectGid pages :
  Forall (page_request cfg projectGid)
         (requests cfg (firstURL projectGid :: map (nextURL projectGid) (cursors pages))).
Proof.
  unfold requests. apply List.Forall_forall. intros e He.
  apply in_map_iff in He. destruct He as [u [<- [<-|Hu]]].
  - exists (firstURL projectGid). auto.
  - apply in_map_iff in Hu. destruct Hu as [o [<- Ho]].
    exists (nextURL projectGid o). split; [reflexivity|].
    right. exists o. split; [exact (cursors_nonempty _ _ Ho)|reflexivity].
Qed.


(** What the fetcher sends for a list of responses: the first URL, then
    one URL per cursor of the pages it went through, which are the
    leading responses that are ok and carry a cursor. *)
Lemma getAllProjectTasks_events cfg projectGid network :
  exists pages rest,
    network = pages ++ rest /\
    Forall has_more pages /\
    events_of (getAllProjectTasks cfg projectGid network)
    = requests cfg (firstURL projectGid :: map (nextURL projectGid) (cursors pages)).
Proof.
  unfold getAllProjectTasks.
  destruct (has_more_split network)
    as [Hall|[pages [r [rest [-> [Hpages [Hbad|[Hok Hend]]]]]]]].
  - exists network, []. rewrite app_nil_r. split; [reflexivity|]. split; [exact Hall|].
    rewrite (fetchPages_exhausted _ _ _ _ _ Hall). reflexivity.
  - exists pages, (r :: rest). split; [reflexivity|]. split; [exact Hpages|].
    rewrite (fetchPages_abort _ _ _ _ _ _ _ Hpages Hbad). reflexivity.
  - exists pages, (r :: rest). split; [reflexivity|]. split; [exact Hpages|].
    rewrite (fetchPages_all _ _ _ _ _ _ _ Hpages Hok Hend). reflexivity.
Qed.

(** The fetcher has three outcomes and no other, whatever the responses
    (an ok response carrying a page).  It returns the tasks of all the pages up to the first successful
    page without cursor; or it throws with the body of the first
    response that is not ok; or, when every response is a successful
    page with a cursor, it has asked for one more page than it was
    given (there is no limit on the number of pages) and fails with the
    transport.  In each case the responses after the deciding one are
    left unread. *)
Theorem getAllProjectTasks_outcomes cfg projectGid (network : list Response) :
  (exists pages last rest,
      network = pages ++ last :: rest /\
      Forall has_more pages /\ ok last = true /\ continuation (json last) = None /\
      getAllProjectTasks cfg projectGid network
      = (requests cfg (firstURL projectGid :: map (nextURL projectGid) (cursors pages)),
         rest, Return (tasks_of (pages ++ [last])))) \/
  (exists pages bad rest,
      network = pages ++ bad :: rest /\
      Forall has_more pages /\ ok bad = false /\
      getAllProjectTasks cfg projectGid network
      = (requests cfg (firstURL projectGid :: map (nextURL projectGid) (cursors pages)),
         rest, Throw (Error ("Failed to fetch tasks: " ++ text bad)))) \/
  (Forall has_more network /\
   getAllProjectTasks cfg projectGid network
   = (requests cfg (firstURL projectGid :: map (nextURL projectGid) (cursors network)),
      [], Throw (TypeError "fetch failed"))).
Proof.
  unfold getAllProjectTasks.
  destruct (has_more_split network)
    as [Hall|[pages [r [rest [-> [Hpages [Hbad|[Hok Hend]]]]]]]].
  - right. right. split; [exact Hall|]. apply fetchPages_exhausted. exact Hall.
  - right. left. exists pages, r, rest.
    split; [reflexivity|]. split; [exact Hpages|]. split; [exact Hbad|].
    apply fetchPages_abort; assumption.
  - left. exists pages, r, rest.
    split; [reflexivity|]. split; [exact Hpages|]. split; [exact Hok|].
    split; [exact Hend|].
    rewrite (fetchPages_all _ _ _ _ _ _ _ Hpages Hok Hend). reflexivity.
Qed.


(** A first page that is ok and has no next_page, or a next_page
    without offset or with an empty offset, ends the fetch after a
    single request: its tasks are returned and nothing more is read. *)
Theorem getAllProjectTasks_single_page cfg projectGid (r : Response) rest :
  ok r = true ->
  next_page (json r) = None \/
  (exists np, next_page (json r) = Some np /\ (offset np = None \/ offset np = Some "")) ->
  getAllProjectTasks cfg projectGid (r :: rest)
  = ([EvFetch (taskRequest cfg (firstURL projectGid))], rest, Return (data (json r))).
Proof.
  intros Hok Hnext.
  assert (Hend : continuation (json r) = None).
  { unfold continuation.
    destruct Hnext as [-> | [np [-> [-> | ->]]]]; reflexivity. }
  unfold getAllProjectTasks. cbn [fetchPages]. rewrite Hok, Hend. reflexivity.
Qed.

Lemma getAllProjectTasks_single_page_witness :
  getAllProjectTasks sampleConfig "1200" [emptyCursorPage [taskA]; mkPage [taskB] None]
  = ([EvFetch (taskRequest sampleConfig (firstURL "1200"))],
     [mkPage [taskB] None], Return [taskA]).
Proof.
  apply (getAllProjectTasks_single_page sampleConfig "1200" (emptyCursorPage [taskA])).
  - reflexivity.
  - right. exists {| offset := Some "" |}. split; [reflexivity|]. right. reflexivity.
Defined.

(** ** Migration Driver: what a run sends, how it ends *)

Lemma processTask_unanswered cfg (mapping : gmap string string) counters task newValue :
  planned cfg mapping task = Some newValue ->
  processTask cfg mapping counters task []
  = ([EvFetch (updateRequest cfg (task_gid task) newValue)], [],
     Throw (TypeError "fetch failed")).
Proof.
  intros H. unfold planned in H.
  destruct (custom_fields task) as [customFields|] eqn:Hcf; [|discriminate H].
  destruct (findOldEnumGid cfg customFields) as [g|] eqn:Hfind; [|discriminate H].
  destruct (truthy (js_get mapping g)) eqn:Htruthy; [|discriminate H].
  injection H as <-.
  unfold processTask. rewrite Hcf.
  destruct customFields as [|f customFields]; [discriminate Hfind|].
  rewrite Hfind, (findOldEnumGid_truthy _ _ _ Hfind). cbv zeta. rewrite Htruthy.
  reflexivity.
Qed.

Lemma forTasks_answered cfg (mapping : gmap string string) tasks :
  forall counters answers rest,
    length answers = length (omap (planned cfg mapping) tasks) ->
    forTasks cfg mapping counters tasks (answers ++ rest)
    = (flat_map (planned_events cfg mapping) tasks, rest,
       Return {| tasksAttempted := tasksAttempted counters + length answers;
                 tasksUpdated := tasksUpdated counters |}).
Proof.
  induction tasks as [|task tasks IH]; intros counters answers rest.
  - destruct answers; [|discriminate]. intros _.
    destruct counters as [a u]. simpl. unfold ret. rewrite Nat.add_0_r. reflexivity.
  - cbn [forTasks flat_map omap list_omap]. unfold planned_events at 1, bind.
    destruct (planned cfg mapping task) as [newValue|] eqn:Hplan; intros Hlen.
    + destruct answers as [|response answers]; [discriminate Hlen|].
      injection Hlen as Hlen. cbn [app].
      rewrite (processTask_planned cfg mapping counters task response _ newValue Hplan).
      rewrite (IH _ answers rest Hlen).
      simpl. rewrite Nat.add_succ_r. reflexivity.
    + rewrite (processTask_not_planned cfg mapping counters task _ Hplan).
      rewrite (IH _ answers rest Hlen). reflexivity.
Qed.

Lemma filter_update_attempt (request : Request) ms (events : list Event) :
  method request = PUT ->
  filter is_update (EvFetch request :: EvTimeout ms :: events)
  = EvFetch request :: filter is_update events.
Proof.
  intros Hput.
  rewrite filter_cons_True by (simpl; rewrite Hput; exact I).
  rewrite filter_cons_False by (simpl; exact id). reflexivity.
Qed.

Lemma filter_timeout_attempt (request : Request) ms (events : list Event) :
  filter is_timeout (EvFetch request :: EvTimeout ms :: events)
  = EvTimeout ms :: filter is_timeout events.
Proof.
  rewrite filter_cons_False by (simpl; exact id).
  rewrite filter_cons_True by (simpl; exact I). reflexivity.
Qed.

Lemma forTasks_unanswered cfg (mapping : gmap string string) tasks :
  forall counters network,
    length network < length (omap (planned cfg mapping) tasks) ->
    exists events,
      forTasks cfg mapping counters tasks network
      = (events, [], Throw (TypeError "fetch failed")) /\
      length (filter is_update events) = S (length network) /\
      length (filter is_timeout events) = length network.
Proof.
  induction tasks as [|task tasks IH]; intros counters network.
  - simpl. lia.
  - cbn [forTasks omap list_omap]. unfold bind.
    destruct (planned cfg mapping task) as [newValue|] eqn:Hplan; intros Hlen.
    + destruct network as [|response rest].
      * rewrite (processTask_unanswered cfg mapping counters task newValue Hplan).
        eexists. split; [reflexivity|]. split; reflexivity.
      * rewrite (processTask_planned cfg mapping counters task response rest newValue Hplan).
        destruct (IH {| tasksAttempted := S (tasksAttempted counters);
                        tasksUpdated := tasksUpdated counters |} rest)
          as [events [-> [Hu Ht]]]; [simpl in Hlen; lia|].
        eexists. split; [reflexivity|]. cbn [app].
        rewrite filter_update_attempt, filter_timeout_attempt by reflexivity.
        cbn [length]. rewrite Hu, Ht. split; reflexivity.
    + rewrite (processTask_not_planned cfg mapping counters task network Hplan).
      destruct (IH counters network Hlen) as [events [-> [Hu Ht]]].
      exists events. split; [reflexivity|]. split; assumption.
Qed.

Lemma planned_events_counts cfg (mapping : gmap string string) tasks :
  length (filter is_update (flat_map (planned_events cfg mapping) tasks))
  = length (omap (planned cfg mapping) tasks) /\
  length (filter is_timeout (flat_map (planned_events cfg mapping) tasks))
  = length (omap (planned cfg mapping) tasks).
Proof.
  induction tasks as [|task tasks [IHu IHt]]; [split; reflexivity|].
  cbn [flat_map omap list_omap]. unfold planned_events at 1 3.
  destruct (planned cfg mapping task); [|split; assumption].
  cbn [app]. rewrite filter_update_attempt, filter_timeout_attempt by reflexivity.
  cbn [length]. rewrite IHu, IHt. split; reflexivity.
Qed.

Lemma forTasks_events_planned cfg (mapping : gmap string string) tasks :
  forall counters network e,
    In e (events_of (forTasks cfg mapping counters tasks network)) ->
    In e (flat_map (planned_events cfg mapping) tasks).
Proof.
  induction tasks as [|task tasks IH]; intros counters network e.
  - simpl. intros [].
  - cbn [forTasks flat_map]. unfold planned_events at 1, bind.
    destruct (planned cfg mapping task) as [newValue|] eqn:Hplan.
    + destruct network as [|response rest].
      * rewrite (processTask_unanswered cfg mapping counters task newValue Hplan).
        simpl. intros [<-|[]]. left. reflexivity.
      * rewrite (processTask_planned cfg mapping counters task response rest newValue Hplan).
        destruct (forTasks cfg mapping _ tasks rest) as [[events network'] c] eqn:Hrun.
        simpl. intros [<-|[<-|Hin]]; [auto|auto|].
        right. right.
        apply (IH {| tasksAttempted := S (tasksAttempted counters);
                     tasksUpdated := tasksUpdated counters |} rest).
        rewrite Hrun. exact Hin.
    + rewrite (processTask_not_planned cfg mapping counters task network Hplan).
      destruct (forTasks cfg mapping counters tasks network) as [[events network'] c] eqn:Hrun.
      simpl. intros Hin. apply (IH counters network). rewrite Hrun. exact Hin.
Qed.

Lemma stringified_key key value k v :
  In (k, v) (stringified key value) -> k = key.
Proof.
  destruct value; simpl; intros H; try (destruct H as [[= <- _]|[]]; reflexivity);
    destruct H.
Qed.

(** Whatever the table, the tasks and the responses, the loop of the
    driver produces only two kinds of events: the 200 ms pause, and PUT
    requests to the resource of a task of the list, with the bearer
    token, whose body names no custom field other than the new field.
    So when the old and the new field have different gids, no request
    writes the old field; and no request is a GET. *)
Theorem forTasks_only_writes_new_field
        cfg (mapping : gmap string string) tasks counters (network : list Response) :
  List.Forall
    (fun e =>
       e = EvTimeout 200 \/
       exists request,
         e = EvFetch request /\
         method request = PUT /\
         (exists task, In task tasks /\
                       url request
                       = ("https://app.asana.com/api/1.0/tasks/" ++ task_gid task)%string) /\
         authorization request = ("Bearer " ++ PERSONAL_ACCESS_TOKEN cfg)%string /\
         length (body_custom_fields request) <= 1 /\
         (forall k v, In (k, v) (body_custom_fields request) -> k = NEW_FIELD_GID cfg) /\
         (OLD_FIELD_GID cfg <> NEW_FIELD_GID cfg ->
          forall v, ~ In (OLD_FIELD_GID cfg, v) (body_custom_fields request)))
    (events_of (forTasks cfg mapping counters tasks network)).
Proof.
  apply List.Forall_forall. intros e He.
  apply forTasks_events_planned in He. apply in_flat_map in He.
  destruct He as [task [Hin He]]. unfold planned_events in He.
  destruct (planned cfg mapping task) as [newValue|] eqn:Hplan; [|destruct He].
  destruct He as [<-|[<-|[]]]; [|left; reflexivity].
  right. eexists. split; [reflexivity|]. split; [reflexivity|].
  split; [exists task; split; [exact Hin|reflexivity]|].
  split; [reflexivity|]. simpl.
  split; [destruct newValue; simpl; lia|].
  split.
  - intros k v Hk. exact (stringified_key _ _ _ _ Hk).
  - intros Hne v Hk. apply Hne. exact (stringified_key _ _ _ _ Hk).
Qed.

Lemma forTasks_only_writes_new_field_witness :
  List.Forall
    (fun e =>
       e = EvTimeout 200 \/
       exists request,
         e = EvFetch request /\
         method request = PUT /\
         (exists task, In task [taskA; taskD; taskH] /\
                       url request
                       = ("https://app.asana.com/api/1.0/tasks/" ++ task_gid task)%string) /\
         authorization request = ("Bearer " ++ PERSONAL_ACCESS_TOKEN sampleConfig)%string /\
         length (body_custom_fields request) <= 1 /\
         (forall k v, In (k, v) (body_custom_fields request) -> k = "22") /\
         ("11" <> "22" -> forall v, ~ In ("11", v) (body_custom_fields request)))
    [EvFetch (updateRequest sampleConfig "1" (JsString "201")); EvTimeout 200;
     EvFetch (updateRequest sampleConfig "8" (JsFunction "constructor")); EvTimeout 200].
Proof.
  exact (forTasks_only_writes_new_field sampleConfig sampleMapping [taskA; taskD; taskH]
           noCounters [okResponse; okResponse]).
Defined.

(** A response that is not ok does not stop the loop, but a request
    that gets no response does: when the service answers fewer update
    requests than the tasks call for, the run throws the transport
    error at the first unanswered request, after one pause per answered
    request, and no counter is reported. *)
Theorem forTasks_transport_failure
        cfg (mapping : gmap string string) tasks counters (network : list Response) :
  length network < length (omap (planned cfg mapping) tasks) ->
  completion_of (forTasks cfg mapping counters tasks network)
  = Throw (TypeError "fetch failed") /\
  network_of (forTasks cfg mapping counters tasks network) = [] /\
  length (filter is_update (events_of (forTasks cfg mapping counters tasks network)))
  = S (length network) /\
  length (filter is_timeout (events_of (forTasks cfg mapping counters tasks network)))
  = length network.
Proof.
  intros Hlen.
  destruct (forTasks_unanswered cfg mapping tasks counters network Hlen)
    as [events [-> [Hu Ht]]].
  split; [reflexivity|]. split; [reflexivity|]. split; assumption.
Qed.

Lemma forTasks_transport_failure_witness :
  completion_of (forTasks sampleConfig sampleMapping noCounters [taskA; taskD; taskA]
                          [failResponse "no"])
  = Throw (TypeError "fetch failed") /\
  length (filter is_update
            (events_of (forTasks sampleConfig sampleMapping noCounters
                                 [taskA; taskD; taskA] [failResponse "no"]))) = 2.
Proof.
  assert (Hlen : length [failResponse "no"]
                 < length (omap (planned sampleConfig sampleMapping) [taskA; taskD; taskA])).
  { vm_compute. repeat constructor. }
  destruct (forTasks_transport_failure sampleConfig sampleMapping [taskA; taskD; taskA]
              noCounters [failResponse "no"] Hlen) as [Hthrow [_ [Hu _]]].
  split; [exact Hthrow|exact Hu].
Defined.

(** Every run of the loop that completes has sent as many update
    requests as it counts attempts, has paused once per request, has
    consumed one response per request, and reports the succeeded
    counter it started with. *)
Theorem forTasks_completed_accounting
        cfg (mapping : gmap string string) tasks counters (network : list Response) counters' :
  completion_of (forTasks cfg mapping counters tasks network) = Return counters' ->
  let events := events_of (forTasks cfg mapping counters tasks network) in
  tasksAttempted counters' = tasksAttempted counters + length (filter is_update events) /\
  tasksUpdated counters' = tasksUpdated counters /\
  length (filter is_timeout events) = length (filter is_update events) /\
  length network
  = length (filter is_update events)
    + length (network_of (forTasks cfg mapping counters tasks network)).
Proof.
  intros Hret. simpl.
  destruct (Nat.lt_ge_cases (length network) (length (omap (planned cfg mapping) tasks)))
    as [Hlt|Hge].
  - destruct (forTasks_unanswered cfg mapping tasks counters network Hlt)
      as [events [Hrun _]].
    rewrite Hrun in Hret. discriminate Hret.
  - remember (take (length (omap (planned cfg mapping) tasks)) network) as answers eqn:Ha.
    remember (drop (length (omap (planned cfg mapping) tasks)) network) as rest eqn:Hr.
    assert (Hnet : network = answers ++ rest) by (subst; symmetry; apply take_drop).
    assert (Htake : length answers = length (omap (planned cfg mapping) tasks))
      by (subst answers; rewrite length_take; lia).
    clear Ha Hr Hge. subst network.
    rewrite (forTasks_answered cfg mapping tasks counters answers rest Htake) in Hret |- *.
    unfold completion_of, events_of, network_of in *. cbn [fst snd] in *.
    injection Hret as <-. cbn [tasksAttempted tasksUpdated].
    destruct (planned_events_counts cfg mapping tasks) as [-> ->].
    rewrite length_app, Htake. repeat split; reflexivity.
Qed.

Lemma forTasks_completed_accounting_witness :
  completion_of (forTasks sampleConfig sampleMapping noCounters [taskA; taskD; taskA]
                          [failResponse "no"; okResponse; okResponse])
  = Return {| tasksAttempted := 2; tasksUpdated := 0 |} /\
  length (network_of (forTasks sampleConfig sampleMapping noCounters [taskA; taskD; taskA]
                               [failResponse "no"; okResponse; okResponse])) = 1.
Proof.
  assert (Hret : completion_of
                   (forTasks sampleConfig sampleMapping noCounters [taskA; taskD; taskA]
                             [failResponse "no"; okResponse; okResponse])
                 = Return {| tasksAttempted := 2; tasksUpdated := 0 |})
    by (vm_compute; reflexivity).
  split; [exact Hret|].
  destruct (forTasks_completed_accounting sampleConfig sampleMapping [taskA; taskD; taskA]
              noCounters [failResponse "no"; okResponse; okResponse] _ Hret)
    as [_ [_ [_ Hnet]]].
  vm_compute in Hnet. vm_compute. lia.
Defined.

(** ** The counting loop and the driver *)

Lemma oldValueOf_countTask cfg stats task :
  exists a,
    oldFieldFoundCount (countTask cfg stats task) = oldFieldFoundCount stats + a /\
    oldFieldWithValueCount (countTask cfg stats task)
    = oldFieldWithValueCount stats + length (omap (oldValueOf cfg) [task]) /\
    length (omap (oldValueOf cfg) [task]) <= a /\ a <= 1.
Proof.
  unfold countTask, oldValueOf. cbn [omap list_omap].
  destruct (custom_fields task) as [[|f customFields]|].
  - exists 0. simpl. lia.
  - rewrite findOldEnumGid_oldField.
    destruct (oldField cfg (f :: customFields)) as [field|].
    + exists 1. destruct (selected field); simpl; lia.
    + exists 0. simpl. lia.
  - exists 0. simpl. lia.
Qed.

Lemma countTask_foldl cfg tasks : forall stats,
  exists a,
    oldFieldFoundCount (foldl (countTask cfg) stats tasks) = oldFieldFoundCount stats + a /\
    oldFieldWithValueCount (foldl (countTask cfg) stats tasks)
    = oldFieldWithValueCount stats + length (omap (oldValueOf cfg) tasks) /\
    length (omap (oldValueOf cfg) tasks) <= a /\ a <= length tasks.
Proof.
  induction tasks as [|task tasks IH]; intros stats.
  - exists 0. simpl. lia.
  - cbn [foldl].
    destruct (IH (countTask cfg stats task)) as [a [Hf [Hv [Hle Hlen]]]].
    destruct (oldValueOf_countTask cfg stats task) as [b [Hf1 [Hv1 [Hle1 Hlen1]]]].
    exists (b + a). rewrite Hf, Hv, Hf1, Hv1.
    revert Hle1. cbn [omap list_omap length].
    destruct (oldValueOf cfg task); cbn [length]; lia.
Qed.

Lemma planned_oldValueOf cfg (mapping : gmap string string) tasks :
  length (omap (planned cfg mapping) tasks) <= length (omap (oldValueOf cfg) tasks).
Proof.
  induction tasks as [|task tasks IH]; [reflexivity|].
  cbn [omap list_omap]. unfold planned at 1, oldValueOf at 1.
  destruct (custom_fields task) as [customFields|]; [|exact IH].
  destruct (findOldEnumGid cfg customFields) as [g|]; [|exact IH].
  destruct (truthy (js_get mapping g)); cbn [length]; lia.
Qed.

Lemma planned_events_none cfg (mapping : gmap string string) tasks :
  length (omap (planned cfg mapping) tasks) = 0 ->
  flat_map (planned_events cfg mapping) tasks = [].
Proof.
  induction tasks as [|task tasks IH]; [reflexivity|].
  cbn [omap list_omap flat_map]. unfold planned_events at 1.
  destruct (planned cfg mapping task); [discriminate|exact IH].
Qed.

Lemma forTasks_updates_le cfg (mapping : gmap string string) tasks counters
      (network : list Response) :
  length (filter is_update (events_of (forTasks cfg mapping counters tasks network)))
  <= length (omap (planned cfg mapping) tasks).
Proof.
  destruct (Nat.lt_ge_cases (length network) (length (omap (planned cfg mapping) tasks)))
    as [Hlt|Hge].
  - destruct (forTasks_unanswered cfg mapping tasks counters network Hlt)
      as [events [-> [Hu _]]].
    unfold events_of. cbn [fst]. rewrite Hu. lia.
  - remember (take (length (omap (planned cfg mapping) tasks)) network) as answers eqn:Ha.
    remember (drop (length (omap (planned cfg mapping) tasks)) network) as rest eqn:Hr.
    assert (Hnet : network = answers ++ rest) by (subst; symmetry; apply take_drop).
    assert (Htake : length answers = length (omap (planned cfg mapping) tasks))
      by (subst answers; rewrite length_take; lia).
    clear Ha Hr Hge. subst network.
    rewrite (forTasks_answered cfg mapping tasks counters answers rest Htake).
    unfold events_of. cbn [fst].
    destruct (planned_events_counts cfg mapping tasks) as [-> _]. lia.
Qed.

(** The counts the fetcher logs bound the work of the driver: among
    the fetched tasks, those with the old field set are at most those
    with the old field present, which are at most all of them; and
    whatever the table and the responses, the driver's loop over these
    tasks sends at most as many update requests as there are tasks with
    the old field set. *)
Theorem countOldField_bounds
        cfg (mapping : gmap string string) (tasks : list Task) counters
        (network : list Response) :
  oldFieldWithValueCount (countOldField cfg tasks)
  <= oldFieldFoundCount (countOldField cfg tasks) /\
  oldFieldFoundCount (countOldField cfg tasks) <= length tasks /\
  length (filter is_update (events_of (forTasks cfg mapping counters tasks network)))
  <= oldFieldWithValueCount (countOldField cfg tasks).
Proof.
  pose proof (forTasks_updates_le cfg mapping tasks counters network) as Hup.
  unfold countOldField.
  destruct (countTask_foldl cfg tasks {| oldFieldFoundCount := 0; oldFieldWithValueCount := 0 |})
    as [a [-> [-> [Hle Hlen]]]].
  pose proof (planned_oldValueOf cfg mapping tasks). simpl. lia.
Qed.

Lemma countOldField_bounds_witness :
  countOldField sampleConfig [taskA; taskB; taskC; taskD; taskE; taskG; taskH]
  = {| oldFieldFoundCount := 5; oldFieldWithValueCount := 3 |} /\
  length (filter is_update
            (events_of (forTasks sampleConfig sampleMapping noCounters
                                 [taskA; taskB; taskC; taskD; taskE; taskG; taskH]
                                 [okResponse; okResponse; okResponse]))) <= 3.
Proof.
  split; [reflexivity|].
  exact (proj2 (proj2 (countOldField_bounds sampleConfig sampleMapping
                         [taskA; taskB; taskC; taskD; taskE; taskG; taskH] noCounters
                         [okResponse; okResponse; okResponse]))).
Defined.

(** The warning of the fetcher is right: when no fetched task has the
    old field set with a value, the driver sends no request, awaits no
    timer and leaves the counters as they were, whatever the table and
    the responses. *)
Theorem warnsNoValue_no_update
        cfg (tasks : list Task) (mapping : gmap string string) counters
        (network : list Response) :
  warnsNoValue cfg tasks = true ->
  forTasks cfg mapping counters tasks network = ([], network, Return counters).
Proof.
  unfold warnsNoValue, countOldField. intros Hwarn. apply Nat.eqb_eq in Hwarn.
  destruct (countTask_foldl cfg tasks {| oldFieldFoundCount := 0; oldFieldWithValueCount := 0 |})
    as [a [_ [Hv _]]].
  rewrite Hwarn in Hv. simpl in Hv.
  pose proof (planned_oldValueOf cfg mapping tasks) as Hle.
  assert (Hnone : length (omap (planned cfg mapping) tasks) = 0) by lia.
  assert (Hnil : length (@nil Response) = length (omap (planned cfg mapping) tasks))
    by (rewrite Hnone; reflexivity).
  change network with ([] ++ network) at 1.
  rewrite (forTasks_answered cfg mapping tasks counters [] network Hnil).
  rewrite (planned_events_none cfg mapping tasks Hnone).
  destruct counters as [att upd]. simpl. rewrite Nat.add_0_r. reflexivity.
Qed.

Lemma warnsNoValue_no_update_witness :
  warnsNoValue sampleConfig [taskB; taskC; taskE; taskG] = true /\
  forTasks sampleConfig sampleMapping noCounters [taskB; taskC; taskE; taskG] [okResponse]
  = ([], [okResponse], Return noCounters).
Proof.
  assert (Hwarn : warnsNoValue sampleConfig [taskB; taskC; taskE; taskG] = true)
    by reflexivity.
  split; [exact Hwarn|].
  exact (warnsNoValue_no_update sampleConfig [taskB; taskC; taskE; taskG] sampleMapping
           noCounters [okResponse] Hwarn).
Defined.

(** ** main, end to end *)

(** A complete run.  When the mapping file can be read and parsed, the
    pages come in successfully up to one without cursor, and the
    service answers every update request, main sends the page requests,
    then for each fetched task that is not skipped its update request
    and the pause, in fetch order; it reads nothing beyond the answers,
    and ends with as many attempts as answers and no successful update
    counted, whether the answers are ok or not. *)
Theorem main_complete_run
        cfg (parse : Parser) fs fileContent records (pages : list Response) last
        (answers rest : list Response) :
  fs !! CSV_MAPPING_FILE cfg = Some fileContent ->
  parse fileContent {| columns := true; trim := true |} = Return records ->
  Forall has_more pages ->
  ok last = true ->
  continuation (json last) = None ->
  length answers
  = length (omap (planned cfg (foldl assignRow ∅ records)) (tasks_of (pages ++ [last]))) ->
  main cfg parse fs (pages ++ last :: answers ++ rest)
  = (requests cfg (firstURL (ASANA_PROJECT_GID cfg)
                   :: map (nextURL (ASANA_PROJECT_GID cfg)) (cursors pages))
     ++ flat_map (planned_events cfg (foldl assignRow ∅ records))
                 (tasks_of (pages ++ [last])),
     rest,
     Done {| tasksAttempted := length answers; tasksUpdated := 0 |}).
Proof.
  intros Hfile Hparse Hmore Hok Hend Hlen.
  unfold main, bind, lift, getAllProjectTasks.
  rewrite (loadMapping_returns _ _ _ _ _ Hfile Hparse).
  rewrite (fetchPages_all cfg _ pages last (answers ++ rest) _ _ Hmore Hok Hend).
  cbn [app]. fold (tasks_of (pages ++ [last])).
  rewrite (forTasks_answered cfg _ _ _ answers rest Hlen).
  reflexivity.
Qed.

Lemma main_complete_run_witness :
  main sampleConfig sampleParse sampleFs
       ([mkPage [taskA; taskB] (Some "x")]
          ++ mkPage [taskC; taskD; taskH] None
          :: [failResponse "no"; okResponse] ++ [okResponse])
  = (requests sampleConfig [firstURL "1200"; nextURL "1200" "x"]
     ++ [EvFetch (updateRequest sampleConfig "1" (JsString "201")); EvTimeout 200;
         EvFetch (updateRequest sampleConfig "8" (JsFunction "constructor"));
         EvTimeout 200],
     [okResponse],
     Done {| tasksAttempted := 2; tasksUpdated := 0 |}).
Proof.
  assert (Hmore : Forall has_more [mkPage [taskA; taskB] (Some "x")]).
  { constructor; [|constructor]. split; [reflexivity|]. simpl. discriminate. }
  exact (main_complete_run sampleConfig sampleParse sampleFs sampleText sampleRecords
           [mkPage [taskA; taskB] (Some "x")] (mkPage [taskC; taskD; taskH] None)
           [failResponse "no"; okResponse] [okResponse]
           eq_refl eq_refl Hmore eq_refl eq_refl eq_refl).
Defined.

Lemma main_no_mapping cfg (parse : Parser) fs (network : list Response) :
  fs !! CSV_MAPPING_FILE cfg = None ->
  main cfg parse fs network
  = ([], network, Caught (SystemError "ENOENT" (CSV_MAPPING_FILE cfg))).
Proof.
  intros Hfile. unfold main, bind, lift, loadMapping, readFile.
  rewrite Hfile. reflexivity.
Qed.

(** The order of the phases of main, whatever the files and the
    responses.  When the mapping file cannot be read, main ends in its
    catch clause with the error of the read before anything is sent:
    no page is requested and no response is consumed.  In every case
    fetching and updating never interleave: the events are page
    requests for the configured project followed by update requests and
    pauses, and there is an update request or a pause only if the fetch
    returned its task list. *)
Theorem main_fetches_then_updates cfg (parse : Parser) fs (network : list Response) :
  (fs !! CSV_MAPPING_FILE cfg = None ->
   main cfg parse fs network
   = ([], network, Caught (SystemError "ENOENT" (CSV_MAPPING_FILE cfg)))) /\
  exists gets puts,
    fst (fst (main cfg parse fs network)) = gets ++ puts /\
    List.Forall (page_request cfg (ASANA_PROJECT_GID cfg)) gets /\
    List.Forall (fun e => e = EvTimeout 200 \/
                          exists request, e = EvFetch request /\ method request = PUT)
                puts /\
    (puts <> [] ->
     exists tasks, completion_of (getAllProjectTasks cfg (ASANA_PROJECT_GID cfg) network)
                   = Return tasks).
Proof.
  split; [apply main_no_mapping|].
  unfold main, bind, lift.
  destruct (loadMapping parse fs (CSV_MAPPING_FILE cfg)) as [mapping|e].
  - destruct (getAllProjectTasks_events cfg (ASANA_PROJECT_GID cfg) network)
      as [pages [_ [_ [_ Hev]]]].
    destruct (getAllProjectTasks cfg (ASANA_PROJECT_GID cfg) network)
      as [[gets network'] [tasks|e]] eqn:Hfetch.
    + unfold events_of in Hev. simpl in Hev. subst gets.
      pose proof (forTasks_events_planned cfg mapping tasks
                    {| tasksAttempted := 0; tasksUpdated := 0 |} network') as Hin.
      destruct (forTasks cfg mapping {| tasksAttempted := 0; tasksUpdated := 0 |}
                         tasks network') as [[puts network''] c].
      exists (requests cfg (firstURL (ASANA_PROJECT_GID cfg)
                            :: map (nextURL (ASANA_PROJECT_GID cfg)) (cursors pages))), puts.
      split; [destruct c; reflexivity|].
      split; [apply requests_page_requests|]. split.
      * apply List.Forall_forall. intros e He. apply Hin in He.
        apply in_flat_map in He. destruct He as [task [_ He]].
        unfold planned_events in He.
        destruct (planned cfg mapping task); [|destruct He].
        destruct He as [<-|[<-|[]]]; [|left; reflexivity].
        right. eexists. split; reflexivity.
      * intros _. exists tasks. reflexivity.
    + unfold events_of in Hev. simpl in Hev. subst gets.
      eexists _, []. simpl. rewrite app_nil_r.
      split; [reflexivity|]. split; [apply requests_page_requests|].
      split; [constructor|]. intros H. contradiction H. reflexivity.
  - exists [], []. simpl. split; [reflexivity|]. split; [constructor|].
    split; [constructor|]. intros H. contradiction H. reflexivity.
Qed.

Lemma main_fetches_then_updates_witness :
  main sampleConfig sampleParse ∅ [mkPage [taskA] None; okResponse]
  = ([], [mkPage [taskA] None; okResponse], Caught (SystemError "ENOENT" "mapping.csv")).
Proof.
  exact (proj1 (main_fetches_then_updates sampleConfig sampleParse ∅
                  [mkPage [taskA] None; okResponse])
               eq_refl).
Defined.
